(** * Smart-Work-Assistant: the authentication layer

    A shallow embedding of [apps/server]: the token helpers of [utils/jwt],
    the controllers of [controllers/authController.js], the gatekeeper of
    [middleware/authMiddleware.js] and the route pipelines of
    [routes/authRoutes.js], followed by the properties of the
    specification that they satisfy (or fail to satisfy).

    Conventions.
    - JavaScript objects are association lists from keys to [value]s.
    - Request body fields are strings when present; a field that is absent
      reads as [None] (JavaScript's [undefined]). [Untyped] reads sign-in
      without this convention, on bodies of any JSON.
    - Text is ASCII: [String.length] stands for JavaScript's [.length].
    - The clock is the whole-second clock that the token library reads
      (a NumericDate, [Math.floor(Date.now() / 1000)]); [generateToken_at]
      and [verifyToken_at] take the time in milliseconds.
    - Third-party packages (bcryptjs, validator.js, the HMAC of
      jsonwebtoken, Prisma's id generator) are the fields of [Libraries];
      every general theorem holds for all of them. *)

From Stdlib Require Import String Ascii List ZArith Bool Lia DecimalString
  Permutation.
Import ListNotations.
Open Scope string_scope.
Open Scope Z_scope.
Set Warnings "-register-all".

(* ------------------------------------------------------------------ *)
(** ** JavaScript values *)

Inductive value : Type :=
| VUndefined
| VNull
| VBool (b : bool)
| VNum (n : Z)
| VStr (s : string)
| VDate (t : Z)
| VArr (items : list value)
| VObj (fields : list (string * value)).

Definition obj : Type := list (string * value).

Fixpoint get (o : obj) (k : string) : value :=
  match o with
  | [] => VUndefined
  | (k', v) :: rest => if String.eqb k k' then v else get rest k
  end.

Definition keys (o : obj) : list string := map fst o.

Definition mem (k : string) (ks : list string) : bool :=
  existsb (String.eqb k) ks.

(** [has_key k v]: some object inside [v] has a property named [k]. *)
Fixpoint has_key (k : string) (v : value) : bool :=
  match v with
  | VArr items => existsb (has_key k) items
  | VObj fields =>
      existsb (fun kv => String.eqb k (fst kv) || has_key k (snd kv)) fields
  | _ => false
  end.

(** [!v] and [a || b] on an optional string. *)
Definition falsy (v : option string) : bool :=
  match v with
  | None => true
  | Some s => String.eqb s EmptyString
  end.

Definition or_default (v : option string) (d : string) : string :=
  if falsy v then d else match v with Some s => s | None => d end.

Definition text (v : option string) : string :=
  match v with Some s => s | None => EmptyString end.

(** [String.prototype.toLowerCase], on ASCII. *)
Definition lower (c : ascii) : ascii :=
  let n := nat_of_ascii c in
  if ((65 <=? n) && (n <=? 90))%nat then ascii_of_nat (n + 32) else c.

Fixpoint toLowerCase (s : string) : string :=
  match s with
  | String c r => String (lower c) (toLowerCase r)
  | EmptyString => EmptyString
  end.

(* ------------------------------------------------------------------ *)
(** ** Exceptions *)

Record error : Type := Error { err_name : string; err_message : string }.

Inductive result (A : Type) : Type :=
| Ok (a : A)
| Thrown (e : error).
Arguments Ok {A} a.
Arguments Thrown {A} e.

(** A synchronous [try { body } catch (error) { handler }]. *)
Definition try_sync {A} (body : result A) (handler : error -> result A)
  : result A :=
  match body with
  | Ok a => Ok a
  | Thrown e => handler e
  end.

(* ------------------------------------------------------------------ *)
(** ** Configuration and third-party packages *)

Record process_env : Type := {
  NODE_ENV : option string;
  env_JWT_SECRET : option string;
  env_JWT_EXPIRES_IN : option string
}.

(** The payload of a token, as jsonwebtoken decodes it. *)
Record claims : Type := { userId : value; iat : Z; exp : Z }.

(** A compact JWS string seen through jsonwebtoken's decoder: either it
    does not split into header, payload and signature ([Opaque], the empty
    string included), or it does. *)
Inductive token : Type :=
| Opaque (raw : string)
| Jws (payload : claims) (signature : string).

Class Libraries : Type := {
  (** bcryptjs; the salt [hash] draws is part of the function. *)
  bcrypt_hash : string -> Z -> string;
  bcrypt_compare : string -> string -> bool;
  (** validator.js, through express-validator. Both functions read an
      address without regard to letter case: [isEmail] matches with
      case-insensitive patterns, and [normalizeEmail], as the routes call
      it, puts the whole address in lower case before it applies the rules
      of the mail provider. [email_shape] and [provider_rules] are the two
      on an address already in lower case. [provider_rules] answers [None]
      where [normalizeEmail] answers [false]: nothing is left of the local
      part once the tag is removed, as in [+foo@gmail.com]. *)
  email_shape : string -> bool;
  provider_rules : string -> option string;
  (** HMAC-SHA256 of the signing input under a secret. *)
  hs256 : string -> claims -> string;
  (** The id Prisma gives the n-th row. *)
  cuid : nat -> string
}.

Definition isEmail `{L : Libraries} (e : string) : bool :=
  email_shape (toLowerCase e).

Definition normalizeEmail `{L : Libraries} (e : string) : option string :=
  provider_rules (toLowerCase e).

(** What a sanitizer's answer leaves in a body field. Body fields are
    strings here; the [false] of [normalizeEmail] is written as the empty
    string, which no address normalizes to and which the controllers, who
    only test [!email], cannot tell from [false]. *)
Definition written (r : option string) : string :=
  match r with
  | Some s => s
  | None => EmptyString
  end.

(* ------------------------------------------------------------------ *)
(** ** The [ms] package: time spans written as text

    A decimal number, with or without a sign, an integer part and a
    fraction, followed by optional spaces and an optional unit, as
    jsonwebtoken hands [expiresIn] strings to [ms]:
    [^(-?(?:\d+)?\.?\d+) *(unit)?$], letter case ignored, at most 100
    characters. [parse_exact] is the value in milliseconds as a fraction;
    [parse] is its floor, which is all that jsonwebtoken keeps of it
    ([Math.floor(iat + milliseconds / 1000)] with [iat] whole). Arithmetic
    is exact, where JavaScript computes in doubles: the whole seconds of a
    span differ only when the span ends within a ten-thousandth of a
    millisecond of a whole second without being one. *)

Module Ms.

Definition is_digit (c : ascii) : bool :=
  let n := nat_of_ascii c in ((48 <=? n) && (n <=? 57))%nat.

Definition digit_val (c : ascii) : Z := Z.of_nat (nat_of_ascii c) - 48.

Fixpoint digits (acc : Z) (s : string) : Z * string :=
  match s with
  | String c r => if is_digit c then digits (10 * acc + digit_val c) r
                  else (acc, s)
  | EmptyString => (acc, s)
  end.

Fixpoint skip_spaces (s : string) : string :=
  match s with
  | String " " r => skip_spaces r
  | _ => s
  end.

Definition s : Z := 1000.
Definition m : Z := s * 60.
Definition h : Z := m * 60.
Definition d : Z := h * 24.
Definition w : Z := d * 7.
Definition y : Z := 31557600000.

Definition units : list (list string * Z) :=
  [ (["years"; "year"; "yrs"; "yr"; "y"], y);
    (["weeks"; "week"; "w"], w);
    (["days"; "day"; "d"], d);
    (["hours"; "hour"; "hrs"; "hr"; "h"], h);
    (["minutes"; "minute"; "mins"; "min"; "m"], m);
    (["seconds"; "second"; "secs"; "sec"; "s"], s);
    (["milliseconds"; "millisecond"; "msecs"; "msec"; "ms"; EmptyString], 1) ].

Fixpoint unit_of (table : list (list string * Z)) (u : string) : option Z :=
  match table with
  | [] => None
  | (names, n) :: rest => if mem u names then Some n else unit_of rest u
  end.

(** The number at the head of the text: numerator, denominator (a power
    of ten) and what follows. An integer part alone, or an integer part
    that may be empty, a point and at least one digit. *)
Definition number (body : string) : option (Z * Z * string) :=
  let '(i, r1) := digits 0 body in
  let integer_digits := (String.length body - String.length r1)%nat in
  match r1 with
  | String "." r2 =>
      let '(f, r3) := digits 0 r2 in
      let fraction_digits := (String.length r2 - String.length r3)%nat in
      if (fraction_digits =? 0)%nat then None
      else Some (i * 10 ^ Z.of_nat fraction_digits + f,
                 10 ^ Z.of_nat fraction_digits, r3)
  | _ => if (integer_digits =? 0)%nat then None else Some (i, 1, r1)
  end.

Definition parse_exact (str : string) : option (Z * Z) :=
  if (100 <? String.length str)%nat then None else
  let '(neg, body) := match str with
                      | String "-" r => (true, r)
                      | _ => (false, str)
                      end in
  match number body with
  | Some (n, d, rest) =>
      match unit_of units (toLowerCase (skip_spaces rest)) with
      | Some u => Some ((if neg then - n else n) * u, d)
      | None => None
      end
  | None => None
  end.

Definition parse (str : string) : option Z :=
  option_map (fun nd => fst nd / snd nd) (parse_exact str).

End Ms.

(* ------------------------------------------------------------------ *)
(** ** The jsonwebtoken package *)

Module Jwt.
Section Jwt.
Context `{L : Libraries}.

Definition JsonWebTokenError (msg : string) : error :=
  Error "JsonWebTokenError" msg.
Definition TokenExpiredError : error :=
  Error "TokenExpiredError" "jwt expired".

(** A word between double quotes. *)
Definition quoted (word : string) : string :=
  String (ascii_of_nat 34) (word ++ String (ascii_of_nat 34) EmptyString).

(** [Math.floor(Date.now() / 1000)]: the second that [sign] and [verify]
    read off the clock, which [Date.now()] reports in milliseconds. *)
Definition NumericDate (date_now : Z) : Z := date_now / 1000.

(** [jwt.sign({ userId }, secret, { expiresIn })] at second [now]. *)
Definition sign (uid : value) (secret expiresIn : string) (now : Z)
  : result token :=
  match Ms.parse expiresIn with
  | None =>
      Thrown (Error "Error"
        (quoted "expiresIn" ++
         " should be a number of seconds or string representing a timespan eg: "
         ++ quoted "1d" ++ ", " ++ quoted "20h" ++ ", 60"))
  | Some milliseconds =>
      let payload := {| userId := uid; iat := now;
                        exp := now + milliseconds / 1000 |} in
      Ok (Jws payload (hs256 secret payload))
  end.

(** [jwt.verify(token, secret)] at second [now]: decode, check the
    signature, then the expiry. *)
Definition verify (t : token) (secret : string) (now : Z) : result claims :=
  match t with
  | Opaque _ => Thrown (JsonWebTokenError "jwt malformed")
  | Jws payload signature =>
      if String.eqb signature (hs256 secret payload) then
        if exp payload <=? now then Thrown TokenExpiredError
        else Ok payload
      else Thrown (JsonWebTokenError "invalid signature")
  end.

End Jwt.
End Jwt.

(* ------------------------------------------------------------------ *)
(** ** The [users] table behind Prisma

    Columns as the client reads them; the primary key on [id] and the
    unique index [users_email_key] reject an insert that repeats either. *)

Module User.
Record t : Type := {
  id : string;
  name : string;
  email : string;
  password : string;
  createdAt : Z
}.

Definition row (u : t) : obj :=
  [ ("id", VStr (id u)); ("name", VStr (name u)); ("email", VStr (email u));
    ("password", VStr (password u)); ("createdAt", VDate (createdAt u)) ].
End User.

Record Db : Type := {
  users : list User.t;
  online : bool;          (* [false]: every query is rejected *)
  seq : nat               (* rows created so far *)
}.

Record World : Type := { db : Db; clock : Z }.

Module Prisma.
Section Prisma.
Context `{L : Libraries}.

Definition InitializationError : error :=
  Error "PrismaClientInitializationError" "Can't reach database server".
Definition ValidationError : error :=
  Error "PrismaClientValidationError" "Invalid value provided".
Definition UniqueConstraintError : error :=
  Error "PrismaClientKnownRequestError" "P2002: Unique constraint failed".

(** [select: { k: true, ... }] keeps the named columns. *)
Definition select (sel : list string) (o : obj) : obj :=
  filter (fun kv => mem (fst kv) sel) o.

Definition by_email (e : string) (u : User.t) : bool :=
  String.eqb (User.email u) e.
Definition by_id (i : string) (u : User.t) : bool :=
  String.eqb (User.id u) i.

(** [prisma.user.findUnique({ where: { email } })]. *)
Definition findUnique_email (d : Db) (e : string) : result (option User.t) :=
  if online d then Ok (find (by_email e) (users d))
  else Thrown InitializationError.

(** [prisma.user.findUnique({ where: { id }, select })]. *)
Definition findUnique_id (d : Db) (i : value) (sel : list string)
  : result (option obj) :=
  if online d then
    match i with
    | VStr i =>
        Ok (option_map (fun u => select sel (User.row u))
                       (find (by_id i) (users d)))
    | _ => Thrown ValidationError
    end
  else Thrown InitializationError.

(** [prisma.user.create({ data, select })] at second [now]. *)
Definition create (d : Db) (now : Z) (n e p : string) (sel : list string)
  : Db * result obj :=
  if online d then
    let u := {| User.id := cuid (seq d); User.name := n; User.email := e;
                User.password := p; User.createdAt := now |} in
    if existsb (by_email e) (users d) || existsb (by_id (User.id u)) (users d)
    then (d, Thrown UniqueConstraintError)
    else ({| users := users d ++ [u]; online := online d;
             seq := S (seq d) |},
          Ok (select sel (User.row u)))
  else (d, Thrown InitializationError).

End Prisma.
End Prisma.

(* ------------------------------------------------------------------ *)
(** ** Requests, responses and handlers

    A handler is a tree of effects: what it asks of the database, of
    bcrypt and of the clock, and what it does to its response. The
    operations a handler [await]s are the points where another request
    can run. *)

Record FieldError : Type := { path : string; msg : string }.

Module Req.
Record t : Type := {
  body : list (string * string);
  cookies : option (list (string * token));
  user : option obj;
  errors : list FieldError          (* left by express-validator *)
}.

Definition with_user (r : t) (u : obj) : t :=
  {| body := body r; cookies := cookies r; user := Some u;
     errors := errors r |}.
End Req.

Fixpoint lookup {V} (l : list (string * V)) (k : string) : option V :=
  match l with
  | [] => None
  | (k', v) :: rest => if String.eqb k k' then Some v else lookup rest k
  end.

(** What one request leaves behind: the cookies and responses written to
    [res], the console, and the requests handed to a downstream probe. *)
Record Exchange : Type := {
  set_cookies : list (string * token * obj);
  sent : list (Z * obj);
  console : list (string * error);
  forwarded : list Req.t
}.

Definition fresh : Exchange :=
  {| set_cookies := []; sent := []; console := []; forwarded := [] |}.

Inductive effect : Type -> Type :=
| UserFindUniqueByEmail (email : string) : effect (option User.t)
| UserFindUniqueById (id : value) (select : list string) : effect (option obj)
| UserCreate (name email password : string) (select : list string) : effect obj
| BcryptHash (s : string) (saltRounds : Z) : effect string
| BcryptCompare (s hash : string) : effect bool
| DateNow : effect Z
| ResCookie (name : string) (val : token) (options : obj) : effect unit
| ResStatusJson (status : Z) (body : obj) : effect unit
| ConsoleError (label : string) (e : error) : effect unit
| Forward (req : Req.t) : effect unit.

(** The effects a handler awaits. *)
Definition suspends {X} (e : effect X) : bool :=
  match e with
  | UserFindUniqueByEmail _ | UserFindUniqueById _ _ | UserCreate _ _ _ _
  | BcryptHash _ _ | BcryptCompare _ _ => true
  | _ => false
  end.

Inductive prog (A : Type) : Type :=
| Ret (a : A)
| Throw (e : error)
| Vis {X : Type} (e : effect X) (k : result X -> prog A).
Arguments Ret {A} a.
Arguments Throw {A} e.
Arguments Vis {A X} e k.

Fixpoint bind {A B} (p : prog A) (f : A -> prog B) : prog B :=
  match p with
  | Ret a => f a
  | Throw e => Throw e
  | Vis e k => Vis e (fun r => bind (k r) f)
  end.

(** [try { p } catch (error) { h error }]. *)
Fixpoint try_catch {A} (p : prog A) (h : error -> prog A) : prog A :=
  match p with
  | Ret a => Ret a
  | Throw e => h e
  | Vis e k => Vis e (fun r => try_catch (k r) h)
  end.

Definition lift {A} (r : result A) : prog A :=
  match r with
  | Ok a => Ret a
  | Thrown e => Throw e
  end.

Definition call {X} (e : effect X) : prog X := Vis e lift.
Definition await {X} (e : effect X) : prog X := call e.

(** A synchronous helper that reads the clock. *)
Definition clocked {A} (f : Z -> result A) : prog A :=
  bind (call DateNow) (fun now => lift (f now)).

Notation "x <- p ;; q" := (bind p (fun x => q))
  (at level 61, p at next level, right associativity).
Notation "p ;; q" := (bind p (fun _ => q))
  (at level 61, right associativity).

Section Semantics.
Context `{L : Libraries}.

Definition perform {X} (w : World) (x : Exchange) (e : effect X)
  : World * Exchange * result X :=
  match e in effect X return World * Exchange * result X with
  | UserFindUniqueByEmail em => (w, x, Prisma.findUnique_email (db w) em)
  | UserFindUniqueById i sel => (w, x, Prisma.findUnique_id (db w) i sel)
  | UserCreate n em p sel =>
      let '(d', r) := Prisma.create (db w) (clock w) n em p sel in
      ({| db := d'; clock := clock w |}, x, r)
  | BcryptHash s rounds => (w, x, Ok (bcrypt_hash s rounds))
  | BcryptCompare s h => (w, x, Ok (bcrypt_compare s h))
  | DateNow => (w, x, Ok (clock w))
  | ResCookie n v o =>
      (w, {| set_cookies := set_cookies x ++ [(n, v, o)]; sent := sent x;
             console := console x; forwarded := forwarded x |}, Ok tt)
  | ResStatusJson st b =>
      (w, {| set_cookies := set_cookies x; sent := sent x ++ [(st, b)];
             console := console x; forwarded := forwarded x |}, Ok tt)
  | ConsoleError l e =>
      (w, {| set_cookies := set_cookies x; sent := sent x;
             console := console x ++ [(l, e)]; forwarded := forwarded x |},
       Ok tt)
  | Forward r =>
      (w, {| set_cookies := set_cookies x; sent := sent x;
             console := console x; forwarded := forwarded x ++ [r] |}, Ok tt)
  end.

(** One request served from start to finish, alone. *)
Fixpoint run {A} (w : World) (x : Exchange) (p : prog A)
  : World * Exchange * result A :=
  match p with
  | Ret a => (w, x, Ok a)
  | Throw e => (w, x, Thrown e)
  | Vis e k => let '(w', x', r) := perform w x e in run w' x' (k r)
  end.

(** Run the synchronous effects up to the next [await]. *)
Fixpoint settle {A} (w : World) (x : Exchange) (p : prog A)
  : World * Exchange * prog A :=
  match p with
  | Vis e k =>
      if suspends e then (w, x, p)
      else let '(w', x', r) := perform w x e in settle w' x' (k r)
  | _ => (w, x, p)
  end.

(** One turn of the event loop for a request: the awaited operation
    completes and the handler runs on to its next [await]. *)
Definition turn {A} (w : World) (x : Exchange) (p : prog A)
  : World * Exchange * prog A :=
  match p with
  | Vis e k => let '(w', x', r) := perform w x e in settle w' x' (k r)
  | _ => (w, x, p)
  end.

(** Two requests in flight; the schedule says whose turn it is
    ([true]: the first). *)
Fixpoint interleave {A} (schedule : list bool) (w : World)
    (a b : Exchange * prog A) : World * (Exchange * prog A) * (Exchange * prog A) :=
  match schedule with
  | [] => (w, a, b)
  | true :: rest =>
      let '(w', x', p') := turn w (fst a) (snd a) in
      interleave rest w' (x', p') b
  | false :: rest =>
      let '(w', x', p') := turn w (fst b) (snd b) in
      interleave rest w' a (x', p')
  end.

End Semantics.

(* ------------------------------------------------------------------ *)
(** ** utils/jwt *)

Section App.
Context `{L : Libraries}.
Variable env : process_env.

Definition JWT_SECRET : string :=
  or_default (env_JWT_SECRET env)
             "your-super-secret-key-change-this-in-production".
Definition JWT_EXPIRES_IN : string :=
  or_default (env_JWT_EXPIRES_IN env) "7d".

Definition production : bool :=
  match NODE_ENV env with
  | Some v => String.eqb v "production"
  | None => false
  end.

Definition generateToken (uid : value) (now : Z) : result token :=
  Jwt.sign uid JWT_SECRET JWT_EXPIRES_IN now.

Definition setTokenCookie (tok : token) : prog unit :=
  call (ResCookie "token" tok
    [ ("httpOnly", VBool true);
      ("secure", VBool production);
      ("sameSite", VStr "strict");
      ("maxAge", VNum (7 * 24 * 60 * 60 * 1000));
      ("path", VStr "/") ]).

Definition clearTokenCookie : prog unit :=
  call (ResCookie "token" (Opaque EmptyString)
    [ ("httpOnly", VBool true);
      ("secure", VBool production);
      ("sameSite", VStr "strict");
      ("expires", VDate 0);
      ("path", VStr "/") ]).

Definition verifyToken (tok : token) (now : Z) : result (option claims) :=
  try_sync
    (match Jwt.verify tok JWT_SECRET now with
     | Ok decoded => Ok (Some decoded)
     | Thrown e => Thrown e
     end)
    (fun _ => Ok None).

(** The two helpers, called when [Date.now()] answers [date_now]
    milliseconds. *)
Definition generateToken_at (uid : value) (date_now : Z) : result token :=
  generateToken uid (Jwt.NumericDate date_now).

Definition verifyToken_at (tok : token) (date_now : Z)
  : result (option claims) :=
  verifyToken tok (Jwt.NumericDate date_now).

(* ------------------------------------------------------------------ *)
(** ** controllers/authController *)

Definition field (b : list (string * string)) (k : string) : option string :=
  lookup b k.

(** [res.status(status).json(body)]. *)
Definition json (status : Z) (body : obj) : prog unit :=
  call (ResStatusJson status body).

Definition projection : list string := ["id"; "name"; "email"; "createdAt"].

Definition signUp (req : Req.t) : prog unit :=
  try_catch
    (let name := field (Req.body req) "name" in
     let email := field (Req.body req) "email" in
     let password := field (Req.body req) "password" in
     if falsy name || falsy email || falsy password then
       json 400 [ ("success", VBool false);
                  ("message", VStr "Please provide name, email, and password") ]
     else if (String.length (text password) <? 6)%nat then
       json 400 [ ("success", VBool false);
                  ("message", VStr "Password must be at least 6 characters long") ]
     else
       existingUser <- await (UserFindUniqueByEmail (text email)) ;;
       match existingUser with
       | Some _ =>
           json 400 [ ("success", VBool false);
                      ("message", VStr "Email already registered") ]
       | None =>
           let saltRounds := 10 in
           hashedPassword <- await (BcryptHash (text password) saltRounds) ;;
           newUser <- await (UserCreate (text name) (text email)
                                        hashedPassword projection) ;;
           tok <- clocked (generateToken (get newUser "id")) ;;
           setTokenCookie tok ;;
           json 201 [ ("success", VBool true);
                      ("message", VStr "User created successfully");
                      ("user", VObj newUser) ]
       end)
    (fun error =>
       call (ConsoleError "Sign up error:" error) ;;
       json 500 [ ("success", VBool false);
                  ("message", VStr "Internal server error") ]).

Definition signIn (req : Req.t) : prog unit :=
  try_catch
    (let email := field (Req.body req) "email" in
     let password := field (Req.body req) "password" in
     if falsy email || falsy password then
       json 400 [ ("success", VBool false);
                  ("message", VStr "Please provide email and password") ]
     else
       found <- await (UserFindUniqueByEmail (text email)) ;;
       match found with
       | None =>
           json 401 [ ("success", VBool false);
                      ("message", VStr "Invalid email or password") ]
       | Some user =>
           isPasswordValid <- await (BcryptCompare (text password)
                                                   (User.password user)) ;;
           if negb isPasswordValid then
             json 401 [ ("success", VBool false);
                        ("message", VStr "Invalid email or password") ]
           else
             tok <- clocked (generateToken (VStr (User.id user))) ;;
             setTokenCookie tok ;;
             json 200 [ ("success", VBool true);
                        ("message", VStr "Signed in successfully");
                        ("user", VObj [ ("id", VStr (User.id user));
                                        ("name", VStr (User.name user));
                                        ("email", VStr (User.email user));
                                        ("createdAt",
                                         VDate (User.createdAt user)) ]) ]
       end)
    (fun error =>
       call (ConsoleError "Sign in error:" error) ;;
       json 500 [ ("success", VBool false);
                  ("message", VStr "Internal server error") ]).

Definition signOut (req : Req.t) : prog unit :=
  try_catch
    (clearTokenCookie ;;
     json 200 [ ("success", VBool true);
                ("message", VStr "Signed out successfully") ])
    (fun error =>
       call (ConsoleError "Sign out error:" error) ;;
       json 500 [ ("success", VBool false);
                  ("message", VStr "Internal server error") ]).

(* ------------------------------------------------------------------ *)
(** ** middleware/authMiddleware *)

(** [req.cookies?.token]. *)
Definition cookie_token (req : Req.t) : option token :=
  match Req.cookies req with
  | Some jar => lookup jar "token"
  | None => None
  end.

(** [!token]: no cookie, or the empty string. *)
Definition no_token (t : option token) : bool :=
  match t with
  | None => true
  | Some (Opaque raw) => String.eqb raw EmptyString
  | Some (Jws _ _) => false
  end.

Definition the_token (t : option token) : token :=
  match t with Some t => t | None => Opaque EmptyString end.

(** [next] is the rest of the route. It is called inside the [try], as in
    the source. *)
Definition authenticate (req : Req.t) (next : Req.t -> prog unit)
  : prog unit :=
  try_catch
    (let tok := cookie_token req in
     if no_token tok then
       json 401 [ ("success", VBool false);
                  ("message", VStr "Authentication required. Please sign in.") ]
     else
       decoded <- clocked (verifyToken (the_token tok)) ;;
       match decoded with
       | None =>
           json 401 [ ("success", VBool false);
                      ("message",
                       VStr "Invalid or expired token. Please sign in again.") ]
       | Some decoded =>
           found <- await (UserFindUniqueById (userId decoded) projection) ;;
           match found with
           | None =>
               json 401 [ ("success", VBool false);
                          ("message",
                           VStr "User not found. Please sign in again.") ]
           | Some user => next (Req.with_user req user)
           end
       end)
    (fun error =>
       call (ConsoleError "Authentication error:" error) ;;
       json 500 [ ("success", VBool false);
                  ("message",
                   VStr "Internal server error during authentication") ]).

End App.

(* ------------------------------------------------------------------ *)
(** ** Bodies as JSON

    [express.json()] hands a controller whatever JSON the client sent: a
    field may hold a number, a boolean, [null], an array or an object as
    well as a string. [Untyped.signIn] is [signIn] read without the
    convention that body fields are strings. The two library calls that
    take a field of the body answer a value that is not a string with a
    rejected promise, which the [await] throws into the [catch]. *)

Module Untyped.

(** [!v]. *)
Definition falsy (v : value) : bool :=
  match v with
  | VUndefined | VNull => true
  | VBool b => negb b
  | VNum n => n =? 0
  | VStr s => String.eqb s EmptyString
  | VDate _ | VArr _ | VObj _ => false
  end.

(** [typeof v]. *)
Definition typeof (v : value) : string :=
  match v with
  | VUndefined => "undefined"
  | VBool _ => "boolean"
  | VNum _ => "number"
  | VStr _ => "string"
  | VNull | VDate _ | VArr _ | VObj _ => "object"
  end.

(** A body whose fields are all strings, as JSON. *)
Definition of_text (b : list (string * string)) : obj :=
  map (fun kv => (fst kv, VStr (snd kv))) b.

Section Untyped.
Context `{L : Libraries}.
Variable env : process_env.

(** [prisma.user.findUnique({ where: { email } })]: the client checks the
    query against the schema, where [email] is a [String], before it sends
    it. *)
Definition findUnique (email : value) : prog (option User.t) :=
  match email with
  | VStr e => await (UserFindUniqueByEmail e)
  | _ => Throw Prisma.ValidationError
  end.

(** [bcrypt.compare(s, hash)] of bcryptjs, [hash] being a string. *)
Definition compare (s : value) (hash : string) : prog bool :=
  match s with
  | VStr s => await (BcryptCompare s hash)
  | _ => Throw (Error "Error"
                  ("Illegal arguments: " ++ typeof s ++ ", string"))
  end.

Definition signIn (body : obj) : prog unit :=
  try_catch
    (let email := get body "email" in
     let password := get body "password" in
     if falsy email || falsy password then
       json 400 [ ("success", VBool false);
                  ("message", VStr "Please provide email and password") ]
     else
       found <- findUnique email ;;
       match found with
       | None =>
           json 401 [ ("success", VBool false);
                      ("message", VStr "Invalid email or password") ]
       | Some user =>
           isPasswordValid <- compare password (User.password user) ;;
           if negb isPasswordValid then
             json 401 [ ("success", VBool false);
                        ("message", VStr "Invalid email or password") ]
           else
             tok <- clocked (generateToken env (VStr (User.id user))) ;;
             setTokenCookie env tok ;;
             json 200 [ ("success", VBool true);
                        ("message", VStr "Signed in successfully");
                        ("user", VObj [ ("id", VStr (User.id user));
                                        ("name", VStr (User.name user));
                                        ("email", VStr (User.email user));
                                        ("createdAt",
                                         VDate (User.createdAt user)) ]) ]
       end)
    (fun error =>
       call (ConsoleError "Sign in error:" error) ;;
       json 500 [ ("success", VBool false);
                  ("message", VStr "Internal server error") ]).

End Untyped.
End Untyped.

(* ------------------------------------------------------------------ *)
(** ** express-validator chains *)

Module Validator.

Definition is_space (c : ascii) : bool :=
  let n := nat_of_ascii c in (((9 <=? n) && (n <=? 13)) || (n =? 32))%nat.

Fixpoint ltrim (s : string) : string :=
  match s with
  | String c r => if is_space c then ltrim r else s
  | EmptyString => EmptyString
  end.

Fixpoint rtrim (s : string) : string :=
  match s with
  | String c r =>
      let r' := rtrim r in
      if is_space c && String.eqb r' EmptyString then EmptyString else String c r'
  | EmptyString => EmptyString
  end.

Definition trim (s : string) : string := rtrim (ltrim s).

Definition isEmpty (s : string) : bool := (String.length s =? 0)%nat.

Definition isLength (min : nat) (max : option nat) (s : string) : bool :=
  let len := String.length s in
  ((min <=? len) &&
   match max with Some m => len <=? m | None => true end)%nat.

End Validator.

Module Chain.

Inductive item : Type :=
| Sanitizer (f : string -> string)
| Check (test : string -> bool) (message : string).

(** The items are kept newest first, so that [withMessage] reaches the
    validator it follows. *)
Record t : Type := { target : string; items : list item }.

Definition push (i : item) (c : t) : t :=
  {| target := target c; items := i :: items c |}.

Definition body (f : string) : t := {| target := f; items := [] |}.

Definition trim : t -> t := push (Sanitizer Validator.trim).

Definition notEmpty : t -> t :=
  push (Check (fun v => negb (Validator.isEmpty v)) "Invalid value").

Definition isLength (min : nat) (max : option nat) : t -> t :=
  push (Check (Validator.isLength min max) "Invalid value").

Definition withMessage (m : string) (c : t) : t :=
  match items c with
  | Check test _ :: rest => {| target := target c; items := Check test m :: rest |}
  | _ => c
  end.

Section Chain.
Context `{L : Libraries}.

Definition isEmail : t -> t := push (Check (@isEmail L) "Invalid value").
Definition normalizeEmail : t -> t :=
  push (Sanitizer (fun v => written (@normalizeEmail L v))).

End Chain.

(** One item applied to the field: a sanitizer replaces the value, a
    validator that fails records its message; the chain goes on either
    way. A field that is absent reads as the empty string. *)
Definition step (f : string) (acc : option string * list FieldError)
    (i : item) : option string * list FieldError :=
  let '(v, errs) := acc in
  match i with
  | Sanitizer g => (Some (g (text v)), errs)
  | Check test m =>
      if test (text v) then (v, errs)
      else (v, (errs ++ [ {| path := f; msg := m |} ])%list)
  end.

Fixpoint assign (b : list (string * string)) (k v : string)
  : list (string * string) :=
  match b with
  | [] => [(k, v)]
  | (k', v') :: rest =>
      if String.eqb k k' then (k, v) :: rest else (k', v') :: assign rest k v
  end.

(** Running a chain writes the sanitized value back to [req.body] and
    adds the failures to the request. *)
Definition apply (req : Req.t) (c : t) : Req.t :=
  let '(v, errs) :=
    fold_left (step (target c)) (rev (items c))
              (lookup (Req.body req) (target c), []) in
  {| Req.body := match v with
                 | Some s => assign (Req.body req) (target c) s
                 | None => Req.body req
                 end;
     Req.cookies := Req.cookies req;
     Req.user := Req.user req;
     Req.errors := Req.errors req ++ errs |}.

(** An array of chains used as middleware. *)
Definition middleware (chains : list t) (req : Req.t)
    (next : Req.t -> prog unit) : prog unit :=
  next (fold_left apply chains req).

End Chain.

Notation "c '|>' f" := (f c) (at level 45, left associativity, only parsing).

(* ------------------------------------------------------------------ *)
(** ** routes/authRoutes *)

Section Routes.
Context `{L : Libraries}.
Variable env : process_env.

Definition validateSignUp : list Chain.t :=
  [ Chain.body "name"
      |> Chain.trim
      |> Chain.notEmpty
      |> Chain.withMessage "Name is required"
      |> Chain.isLength 2 (Some 50%nat)
      |> Chain.withMessage "Name must be between 2 and 50 characters";
    Chain.body "email"
      |> Chain.trim
      |> Chain.notEmpty
      |> Chain.withMessage "Email is required"
      |> Chain.isEmail
      |> Chain.withMessage "Please provide a valid email address"
      |> Chain.normalizeEmail;
    Chain.body "password"
      |> Chain.notEmpty
      |> Chain.withMessage "Password is required"
      |> Chain.isLength 6 None
      |> Chain.withMessage "Password must be at least 6 characters long" ].

Definition validateSignIn : list Chain.t :=
  [ Chain.body "email"
      |> Chain.trim
      |> Chain.notEmpty
      |> Chain.withMessage "Email is required"
      |> Chain.isEmail
      |> Chain.withMessage "Please provide a valid email address"
      |> Chain.normalizeEmail;
    Chain.body "password"
      |> Chain.notEmpty
      |> Chain.withMessage "Password is required" ].

Definition checkValidation (req : Req.t) (next : Req.t -> prog unit)
  : prog unit :=
  let errors := Req.errors req in
  if negb (Nat.eqb (List.length errors) 0) then
    json 400 [ ("success", VBool false);
               ("message", VStr "Validation failed");
               ("errors",
                VArr (map (fun err => VObj [ ("field", VStr (path err));
                                             ("message", VStr (msg err)) ])
                          errors)) ]
  else next req.

(** [router.post('/signup', validateSignUp, checkValidation, signUp)]. *)
Definition post_signup (req : Req.t) : prog unit :=
  Chain.middleware validateSignUp req (fun req =>
  checkValidation req (fun req =>
  signUp env req)).

(** [router.post('/signin', validateSignIn, checkValidation, signIn)]. *)
Definition post_signin (req : Req.t) : prog unit :=
  Chain.middleware validateSignIn req (fun req =>
  checkValidation req (fun req =>
  signIn env req)).

(** [router.post('/signout', authenticate, signOut)]. *)
Definition post_signout (req : Req.t) : prog unit :=
  authenticate env req (fun req => signOut env req).

End Routes.

(* ------------------------------------------------------------------ *)
(** ** Test doubles

    Stand-ins for the third-party packages, used to run the handlers on
    concrete requests. *)

Module Double.

Fixpoint has_at (s : string) : bool :=
  match s with
  | String "@" _ => true
  | String _ r => has_at r
  | EmptyString => false
  end.

(** The double refuses an address that begins with a tag. *)
Definition starts_with_tag (s : string) : bool :=
  match s with
  | String "+" _ => true
  | _ => false
  end.

Definition uid_text (v : value) : string :=
  match v with VStr s => s | _ => EmptyString end.

#[export] Instance libs : Libraries := {|
  bcrypt_hash := fun s _ => "$2a$10$" ++ s;
  bcrypt_compare := fun s h => String.eqb h ("$2a$10$" ++ s);
  email_shape := has_at;
  provider_rules := fun s => if starts_with_tag s then None else Some s;
  hs256 := fun secret payload => secret ++ "." ++ uid_text (userId payload);
  cuid := fun n => "u" ++ NilEmpty.string_of_uint (Nat.to_uint n)
|}.

Definition dev : process_env :=
  {| NODE_ENV := None; env_JWT_SECRET := None; env_JWT_EXPIRES_IN := None |}.

Definition one_day : process_env :=
  {| NODE_ENV := Some "production"; env_JWT_SECRET := Some "s3cret";
     env_JWT_EXPIRES_IN := Some "1d" |}.

Definition ann : User.t :=
  {| User.id := "u0"; User.name := "Ann"; User.email := "a@x.com";
     User.password := "$2a$10$secret1"; User.createdAt := 1000 |}.

Definition empty_world : World :=
  {| db := {| users := []; online := true; seq := 0 |}; clock := 1000 |}.

Definition world_with_ann : World :=
  {| db := {| users := [ann]; online := true; seq := 1 |}; clock := 2000 |}.

Definition post (b : list (string * string)) : Req.t :=
  {| Req.body := b; Req.cookies := Some []; Req.user := None;
     Req.errors := [] |}.

Definition with_cookie (t : token) : Req.t :=
  {| Req.body := []; Req.cookies := Some [("token", t)]; Req.user := None;
     Req.errors := [] |}.

End Double.

(* ------------------------------------------------------------------ *)
(** ** Observations

    What the properties below speak about: the exchange a run leaves, the
    shape of its responses, the rules of the validation chains. *)

Definition exchange {A} (r : World * Exchange * result A) : Exchange :=
  snd (fst r).

Definition is_2xx (status : Z) : bool := (200 <=? status) && (status <? 300).

(** The lifetime, in seconds, that [generateToken] gives its tokens. *)
Definition token_lifetime (env : process_env) : option Z :=
  option_map (fun milliseconds => milliseconds / 1000)
             (Ms.parse (JWT_EXPIRES_IN env)).

(** The cookie contract of the specification: HTTP-only, secure only in
    production, same-site strict, a given [maxAge] in milliseconds, and
    path [/]. *)
Definition cookie_contract (in_production : bool) (maxAge : Z) : obj :=
  [ ("httpOnly", VBool true);
    ("secure", VBool in_production);
    ("sameSite", VStr "strict");
    ("maxAge", VNum maxAge);
    ("path", VStr "/") ].

(** A downstream handler that only records the request it is given. *)
Definition forward (r : Req.t) : prog unit := call (Forward r).

Definition responded (status : Z) (body : obj) : Exchange :=
  {| set_cookies := []; sent := [(status, body)]; console := [];
     forwarded := [] |}.

Definition user_keys (body : obj) : option (list string) :=
  match get body "user" with
  | VObj o => Some (keys o)
  | _ => None
  end.

(** A response is discreet when no object in it has a [password] property
    and its [user], present exactly on success, has the four public
    properties. *)
Definition discreet (r : Z * obj) : Prop :=
  has_key "password" (VObj (snd r)) = false /\
  user_keys (snd r) = if is_2xx (fst r) then Some projection else None.

Definition attached_discreetly (r : Req.t) : Prop :=
  exists o, Req.user r = Some o /\ keys o = projection /\
            has_key "password" (VObj o) = false.

(** Every response says whether it succeeded. *)
Definition flagged (r : Z * obj) : Prop :=
  get (snd r) "success" = VBool (is_2xx (fst r)).

Definition emails_unique (d : Db) : Prop := NoDup (map User.email (users d)).

(** What a chain leaves in the field, and the failures it records. *)
Fixpoint sanitized (items : list Chain.item) (v : option string)
  : option string :=
  match items with
  | [] => v
  | Chain.Sanitizer g :: rest => sanitized rest (Some (g (text v)))
  | Chain.Check _ _ :: rest => sanitized rest v
  end.

Definition failure (ok : bool) (f m : string) : list FieldError :=
  if ok then [] else [ {| path := f; msg := m |} ].

Fixpoint failures (f : string) (items : list Chain.item) (v : option string)
  : list FieldError :=
  match items with
  | [] => []
  | Chain.Sanitizer g :: rest => failures f rest (Some (g (text v)))
  | Chain.Check test m :: rest =>
      (failure (test (text v)) f m ++ failures f rest v)%list
  end.

(** A request as the parsers hand it to a route: a body, the cookies,
    no user attached and no validation failure recorded. *)
Definition arriving (b : list (string * string))
    (cookies : option (list (string * token))) : Req.t :=
  {| Req.body := b; Req.cookies := cookies; Req.user := None;
     Req.errors := [] |}.

Definition with_email (req : Req.t) (e : string) : Req.t :=
  {| Req.body := Chain.assign (Req.body req) "email" e;
     Req.cookies := Req.cookies req;
     Req.user := Req.user req;
     Req.errors := Req.errors req |}.

Section Rules.
Context `{L : Libraries}.

(** The email the controller reads once the chains have run: trimmed,
    normalized, and empty where [normalizeEmail] answered [false]. *)
Definition controller_email (b : list (string * string)) : string :=
  written (normalizeEmail (Validator.trim (text (lookup b "email")))).

(** The rules of [validateSignUp], read off the chains. *)
Definition signup_failures (b : list (string * string)) : list FieldError :=
  let name := Validator.trim (text (lookup b "name")) in
  let email := Validator.trim (text (lookup b "email")) in
  let password := text (lookup b "password") in
  (failure (negb (Validator.isEmpty name)) "name" "Name is required" ++
   failure (Validator.isLength 2 (Some 50%nat) name) "name"
           "Name must be between 2 and 50 characters" ++
   failure (negb (Validator.isEmpty email)) "email" "Email is required" ++
   failure (isEmail email) "email" "Please provide a valid email address" ++
   failure (negb (Validator.isEmpty password)) "password"
           "Password is required" ++
   failure (Validator.isLength 6 None password) "password"
           "Password must be at least 6 characters long")%list.

Definition signup_rules_pass (b : list (string * string)) : bool :=
  let name := Validator.trim (text (lookup b "name")) in
  let email := Validator.trim (text (lookup b "email")) in
  let password := text (lookup b "password") in
  negb (Validator.isEmpty name) && Validator.isLength 2 (Some 50%nat) name &&
  negb (Validator.isEmpty email) && isEmail email &&
  negb (Validator.isEmpty password) && Validator.isLength 6 None password.

Definition signin_failures (b : list (string * string)) : list FieldError :=
  let email := Validator.trim (text (lookup b "email")) in
  let password := text (lookup b "password") in
  (failure (negb (Validator.isEmpty email)) "email" "Email is required" ++
   failure (isEmail email) "email" "Please provide a valid email address" ++
   failure (negb (Validator.isEmpty password)) "password"
           "Password is required")%list.

(** The controller's own check: a field is missing or empty, or the
    password is shorter than six characters. *)
Definition controller_rejects (b : list (string * string)) : bool :=
  falsy (field b "name") || falsy (field b "email") ||
  falsy (field b "password") ||
  (String.length (text (field b "password")) <? 6)%nat.

End Rules.

(* ------------------------------------------------------------------ *)
(** ** server.js: the handlers of the application itself *)

Section Server.
Context `{L : Libraries}.
Variable env : process_env.

Definition development : bool :=
  match NODE_ENV env with
  | Some v => String.eqb v "development"
  | None => false
  end.

(** [app.get('/api/health', ...)]: [res.json] with the default status.
    The timestamp is the date of the call, sent as ISO text. *)
Definition health (req : Req.t) : prog unit :=
  now <- call DateNow ;;
  json 200 [ ("success", VBool true);
             ("message", VStr "Server is running!");
             ("timestamp", VDate now) ].

(** [app.use('*', ...)]. *)
Definition notFound (req : Req.t) : prog unit :=
  json 404 [ ("success", VBool false);
             ("message", VStr "Route not found") ].

(** [app.use((err, req, res, next) => ...)]; spreading [false] adds
    nothing. *)
Definition errorHandler (err : error) (req : Req.t) : prog unit :=
  call (ConsoleError "Error:" err) ;;
  json 500 ([ ("success", VBool false);
              ("message", VStr "Internal server error") ] ++
            (if development then [ ("error", VStr (err_message err)) ]
             else []))%list.

End Server.

(* ------------------------------------------------------------------ *)
(** ** More observations *)

Definition world_of {A} (r : World * Exchange * result A) : World :=
  fst (fst r).

(** The cookies a browser holds after an exchange, as it sends them
    back. *)
Definition jar (x : Exchange) : list (string * token) :=
  map fst (set_cookies x).

Definition carrying (b : list (string * string))
    (cookies : list (string * token)) : Req.t :=
  {| Req.body := b; Req.cookies := Some cookies; Req.user := None;
     Req.errors := [] |}.

Definition at_second (w : World) (t : Z) : World :=
  {| db := db w; clock := t |}.

(** The store after a handler holds the users it held, followed by at
    most one new user. *)
Definition appends_at_most_one (w w' : World) : Prop :=
  users (db w') = users (db w) \/
  exists u, users (db w') = (users (db w) ++ [u])%list.

(** The library calls a handler awaits, in order. *)
Definition label {X} (e : effect X) : string :=
  match e with
  | UserFindUniqueByEmail _ | UserFindUniqueById _ _ =>
      "prisma.user.findUnique"
  | UserCreate _ _ _ _ => "prisma.user.create"
  | BcryptHash _ _ => "bcrypt.hash"
  | BcryptCompare _ _ => "bcrypt.compare"
  | DateNow => "Date.now"
  | ResCookie _ _ _ => "res.cookie"
  | ResStatusJson _ _ => "res.json"
  | ConsoleError _ _ => "console.error"
  | Forward _ => "next"
  end.

Section Awaited.
Context `{L : Libraries}.

Fixpoint awaited {A} (w : World) (x : Exchange) (p : prog A) : list string :=
  match p with
  | Vis e k =>
      let '(w', x', r) := perform w x e in
      ((if suspends e then [label e] else []) ++ awaited w' x' (k r))%list
  | _ => []
  end.

(** The rules of [validateSignIn], read off the chains. *)
Definition signin_rules_pass (b : list (string * string)) : bool :=
  let email := Validator.trim (text (lookup b "email")) in
  let password := text (lookup b "password") in
  negb (Validator.isEmpty email) && isEmail email &&
  negb (Validator.isEmpty password).

End Awaited.

(** The user a token speaks for, and the id of the user in a response. *)
Definition token_subject (t : token) : value :=
  match t with
  | Jws payload _ => userId payload
  | Opaque _ => VUndefined
  end.

Definition response_user_id (r : Z * obj) : value :=
  match get (snd r) "user" with
  | VObj o => get o "id"
  | _ => VUndefined
  end.

Definition successes (x : Exchange) : list (Z * obj) :=
  filter (fun r => is_2xx (fst r)) (sent x).

Definition failures_500 (x : Exchange) : list (Z * obj) :=
  filter (fun r => fst r =? 500) (sent x).

(** What a handler may still do, read off its tree. [quiet]: it neither
    inserts a user nor answers 2xx. [once]: it does not insert, and answers
    2xx at most once. [guarded e]: it answers 2xx only after an insert for
    the email [e] that the store accepted, and then at most once. *)
Definition answers_2xx {X} (ev : effect X) : bool :=
  match ev with
  | ResStatusJson status _ => is_2xx status
  | _ => false
  end.

Definition creates {X} (ev : effect X) : option string :=
  match ev with
  | UserCreate _ email _ _ => Some email
  | _ => None
  end.

Definition accepted {X} (r : result X) : bool :=
  match r with
  | Ok _ => true
  | Thrown _ => false
  end.

Fixpoint quiet (p : prog unit) : Prop :=
  match p with
  | Vis ev k =>
      answers_2xx ev = false /\ creates ev = None /\ forall r, quiet (k r)
  | _ => True
  end.

Fixpoint once (p : prog unit) : Prop :=
  match p with
  | Vis ev k =>
      creates ev = None /\
      forall r, if answers_2xx ev then quiet (k r) else once (k r)
  | _ => True
  end.

Fixpoint guarded (e : string) (p : prog unit) : Prop :=
  match p with
  | Vis ev k =>
      answers_2xx ev = false /\
      match creates ev with
      | Some e' => e' = e /\ forall r, if accepted r then once (k r)
                                       else guarded e (k r)
      | None => forall r, guarded e (k r)
      end
  | _ => True
  end.

(** Some stored user has the email [e]. *)
Definition taken (e : string) (w : World) : bool :=
  existsb (Prisma.by_email e) (users (db w)).

(** A request in flight, by what it has done for [e]: it has answered no
    2xx and made no accepted insert, or the store holds [e] and the
    request has at most one 2xx in all, behind it or ahead of it. *)
Definition not_inserted (e : string) (s : Exchange * prog unit) : Prop :=
  successes (fst s) = [] /\ guarded e (snd s).

Definition inserted (e : string) (w : World) (s : Exchange * prog unit)
  : Prop :=
  taken e w = true /\
  ((successes (fst s) = [] /\ once (snd s)) \/
   ((List.length (successes (fst s)) <= 1)%nat /\ quiet (snd s))).

(** Of two requests in flight, at most one has had an insert accepted. *)
Definition one_insert (e : string) (w : World) (a b : Exchange * prog unit)
  : Prop :=
  (not_inserted e a /\ not_inserted e b) \/
  (inserted e w a /\ not_inserted e b) \/
  (not_inserted e a /\ inserted e w b).

(** How many 2xx answers two requests in flight have been given. *)
Definition answered_2xx
    (r : World * (Exchange * prog unit) * (Exchange * prog unit)) : nat :=
  List.length (successes (fst (snd (fst r)))) +
  List.length (successes (fst (snd r))).

Section Outcomes.
Context `{L : Libraries}.
Variable env : process_env.

(** The user that a sign-up for [req] inserts into [w]. *)
Definition new_user (w : World) (req : Req.t) : User.t :=
  {| User.id := cuid (seq (db w));
     User.name := text (field (Req.body req) "name");
     User.email := text (field (Req.body req) "email");
     User.password := bcrypt_hash (text (field (Req.body req) "password")) 10;
     User.createdAt := clock w |}.

Definition with_new_user (w : World) (u : User.t) : World :=
  {| db := {| users := users (db w) ++ [u]; online := online (db w);
              seq := S (seq (db w)) |};
     clock := clock w |}.

Definition public (u : User.t) : obj :=
  [ ("id", VStr (User.id u)); ("name", VStr (User.name u));
    ("email", VStr (User.email u)); ("createdAt", VDate (User.createdAt u)) ].

Definition token_for (u : User.t) (now lifetime : Z) : token :=
  Jws {| userId := VStr (User.id u); iat := now; exp := now + lifetime |}
      (hs256 (JWT_SECRET env)
         {| userId := VStr (User.id u); iat := now; exp := now + lifetime |}).

End Outcomes.

(* ------------------------------------------------------------------ *)
(** * Properties *)

(** Symbolic execution of a handler: unfold the next library call and
    split on what it answers. *)
Ltac branch :=
  match goal with
  | |- context [if ?c then _ else _] => destruct c eqn:?
  | |- context [match ?x with Some _ => _ | None => _ end] => destruct x eqn:?
  | |- context [match ?x with Ok _ => _ | Thrown _ => _ end] => destruct x eqn:?
  | |- context [match ?x with VStr _ => _ | _ => _ end] => destruct x eqn:?
  | |- context [match ?x with Opaque _ => _ | Jws _ _ => _ end] =>
      destruct x eqn:?
  end.

Ltac exec :=
  repeat (cbn -[Nat.ltb falsy Z.mul Z.add Z.div Z.leb Ms.parse fold_left];
          unfold Prisma.findUnique_email, Prisma.findUnique_id, Prisma.create,
                 generateToken, verifyToken, Jwt.sign, Jwt.verify, try_sync;
          try branch).

Section TokenService.
Context `{L : Libraries}.
Variable env : process_env.

Lemma generateToken_exp uid now milliseconds :
  Ms.parse (JWT_EXPIRES_IN env) = Some milliseconds ->
  generateToken env uid now =
    Ok (Jws {| userId := uid; iat := now; exp := now + milliseconds / 1000 |}
            (hs256 (JWT_SECRET env)
               {| userId := uid; iat := now;
                  exp := now + milliseconds / 1000 |})).
Proof.
  intros H. unfold generateToken, Jwt.sign. now rewrite H.
Qed.

(** On the whole-second clock: a token issued for [uid] at second [T]
    under a configured lifetime of [lifetime] seconds is issued without
    error; [verifyToken] decodes it to a claim carrying the same [uid] at
    every second before [T + lifetime], and answers [null] at every second
    from [T + lifetime] on. *)
Lemma verifyToken_by_the_second (uid : value) (T lifetime : Z) :
  token_lifetime env = Some lifetime ->
  exists tok decoded,
    generateToken env uid T = Ok tok /\
    userId decoded = uid /\
    (forall t, t < T + lifetime -> verifyToken env tok t = Ok (Some decoded)) /\
    (forall t, T + lifetime <= t -> verifyToken env tok t = Ok None).
Proof.
  unfold token_lifetime. intros H.
  destruct (Ms.parse (JWT_EXPIRES_IN env)) as [milliseconds|] eqn:E;
    [|discriminate].
  injection H as <-.
  set (payload := {| userId := uid; iat := T;
                     exp := T + milliseconds / 1000 |}).
  exists (Jws payload (hs256 (JWT_SECRET env) payload)), payload.
  split; [apply generateToken_exp; exact E|].
  split; [reflexivity|].
  split; intros t Ht; unfold verifyToken, Jwt.verify, try_sync;
    rewrite String.eqb_refl; subst payload; cbn [exp].
  - destruct (Z.leb_spec (T + milliseconds / 1000) t); [lia|reflexivity].
  - destruct (Z.leb_spec (T + milliseconds / 1000) t); [reflexivity|lia].
Qed.

(** C4, as the code has it. Times are in milliseconds, as [Date.now()]
    reports them, and [span] is the configured lifetime. A token issued for
    [uid] at time [T] is issued without error, and [verifyToken] decodes it
    to a claim carrying the same [uid] exactly at the times [t] whose whole
    second lies before the whole second of [T] plus the whole seconds of
    [span]; at every other time it answers [null]. So the token verifies
    at every time up to two seconds before [T + span], up to one second
    before [T + span] when [span] is a whole number of seconds, and is
    refused at every time from [T + span] on. *)
Theorem verify_inverts_generate_to_the_second (uid : value) (T span : Z) :
  Ms.parse (JWT_EXPIRES_IN env) = Some span ->
  exists tok decoded,
    generateToken_at env uid T = Ok tok /\
    userId decoded = uid /\
    (forall t,
        verifyToken_at env tok t =
          Ok (if t / 1000 <? T / 1000 + span / 1000 then Some decoded
              else None)) /\
    (forall t, t + 2000 <= T + span ->
               verifyToken_at env tok t = Ok (Some decoded)) /\
    (forall t, span mod 1000 = 0 -> t + 1000 <= T + span ->
               verifyToken_at env tok t = Ok (Some decoded)) /\
    (forall t, T + span <= t -> verifyToken_at env tok t = Ok None).
Proof.
  intros E.
  set (payload := {| userId := uid; iat := T / 1000;
                     exp := T / 1000 + span / 1000 |}).
  exists (Jws payload (hs256 (JWT_SECRET env) payload)), payload.
  assert (V : forall t,
             verifyToken_at env (Jws payload (hs256 (JWT_SECRET env) payload))
                            t =
               Ok (if t / 1000 <? T / 1000 + span / 1000 then Some payload
                   else None)).
  { intros t.
    unfold verifyToken_at, Jwt.NumericDate, verifyToken, Jwt.verify, try_sync.
    rewrite String.eqb_refl. subst payload. cbn [exp].
    rewrite Z.ltb_antisym.
    now destruct (T / 1000 + span / 1000 <=? t / 1000). }
  split; [apply generateToken_exp; exact E|].
  split; [reflexivity|].
  split; [exact V|].
  split; [|split]; intros t; intros; rewrite V.
  - destruct (Z.ltb_spec (t / 1000) (T / 1000 + span / 1000)); [reflexivity|].
    exfalso. Z.to_euclidean_division_equations. lia.
  - destruct (Z.ltb_spec (t / 1000) (T / 1000 + span / 1000)); [reflexivity|].
    exfalso. Z.to_euclidean_division_equations. lia.
  - destruct (Z.ltb_spec (t / 1000) (T / 1000 + span / 1000)); [|reflexivity].
    exfalso. Z.to_euclidean_division_equations. lia.
Qed.

(** C5. [verifyToken] returns normally on every input: the decoded claim
    when the token splits into a payload and a signature, the signature is
    the one this server computes and the expiry lies ahead; [null] for a
    string that is no token, a signature that does not match, or an expiry
    that has passed. It never throws. *)
Theorem verifyToken_total (tok : token) (now : Z) :
  verifyToken env tok now =
    Ok match tok with
       | Opaque _ => None
       | Jws payload signature =>
           if String.eqb signature (hs256 (JWT_SECRET env) payload)
              && (now <? exp payload)
           then Some payload else None
       end.
Proof.
  unfold verifyToken, Jwt.verify, try_sync.
  destruct tok as [raw|payload signature]; [reflexivity|].
  destruct (String.eqb signature _); [|reflexivity].
  cbn [andb]. rewrite Z.ltb_antisym.
  now destruct (exp payload <=? now).
Qed.

(** C8, as the code has it. The cookie that carries a token is named
    [token] and has exactly the attributes of the contract with a [maxAge]
    of seven days in milliseconds, whatever lifetime is configured: this
    holds for [setTokenCookie] and for every cookie that sign-up and
    sign-in set. [secure] is [true] exactly when [NODE_ENV] is
    [production]. Seven days is the lifetime of the token when
    [JWT_EXPIRES_IN] is left unset. *)
Theorem token_cookie_attributes :
  (forall w x tok,
      run w x (setTokenCookie env tok) =
        (w,
         {| set_cookies :=
              set_cookies x ++
              [("token", tok,
                cookie_contract
                  match NODE_ENV env with
                  | Some v => String.eqb v "production"
                  | None => false
                  end
                  604800000)];
            sent := sent x; console := console x;
            forwarded := forwarded x |},
         Ok tt)) /\
  (forall w req,
      Forall (fun c => fst (fst c) = "token" /\
                       snd c = cookie_contract (production env) 604800000)
             (set_cookies (exchange (run w fresh (signUp env req))))) /\
  (forall w req,
      Forall (fun c => fst (fst c) = "token" /\
                       snd c = cookie_contract (production env) 604800000)
             (set_cookies (exchange (run w fresh (signIn env req))))) /\
  (forall node secret,
      option_map (Z.mul 1000)
        (token_lifetime {| NODE_ENV := node; env_JWT_SECRET := secret;
                           env_JWT_EXPIRES_IN := None |}) = Some 604800000).
Proof.
  split; [reflexivity|].
  split; [|split].
  - intros w req. unfold signUp, exchange. exec.
    all: cbn; repeat constructor.
  - intros w req. unfold signIn, exchange. exec.
    all: cbn; repeat constructor.
  - reflexivity.
Qed.

End TokenService.

(** C4, as the specification has it, fails: under the default seven days
    a token issued at 1000.9 s is refused at 605800.0 s, nine tenths of a
    second before its lifetime is over. *)
Lemma token_is_refused_in_its_last_second :
  Ms.parse (JWT_EXPIRES_IN Double.dev) = Some 604800000 /\
  605800000 < 1000900 + 604800000 /\
  generateToken_at (L := Double.libs) Double.dev (VStr "u0") 1000900 =
    Ok (Jws {| userId := VStr "u0"; iat := 1000; exp := 605800 |}
            "your-super-secret-key-change-this-in-production.u0") /\
  verifyToken_at (L := Double.libs) Double.dev
    (Jws {| userId := VStr "u0"; iat := 1000; exp := 605800 |}
         "your-super-secret-key-change-this-in-production.u0")
    605800000 = Ok None /\
  verifyToken_at (L := Double.libs) Double.dev
    (Jws {| userId := VStr "u0"; iat := 1000; exp := 605800 |}
         "your-super-secret-key-change-this-in-production.u0")
    605799999 =
    Ok (Some {| userId := VStr "u0"; iat := 1000; exp := 605800 |}).
Proof.
  repeat apply conj; reflexivity.
Qed.

(** C4, at a concrete instance: the default seven days, issued at
    1000.9 s. *)
Lemma verify_inverts_generate_to_the_second_witness :
  exists tok decoded,
    generateToken_at (L := Double.libs) Double.dev (VStr "u0") 1000900 =
      Ok tok /\
    userId decoded = VStr "u0" /\
    (forall t,
        verifyToken_at (L := Double.libs) Double.dev tok t =
          Ok (if t / 1000 <? 1000900 / 1000 + 604800000 / 1000
              then Some decoded else None)) /\
    (forall t, t + 2000 <= 1000900 + 604800000 ->
               verifyToken_at (L := Double.libs) Double.dev tok t =
                 Ok (Some decoded)) /\
    (forall t, 604800000 mod 1000 = 0 -> t + 1000 <= 1000900 + 604800000 ->
               verifyToken_at (L := Double.libs) Double.dev tok t =
                 Ok (Some decoded)) /\
    (forall t, 1000900 + 604800000 <= t ->
               verifyToken_at (L := Double.libs) Double.dev tok t = Ok None).
Proof.
  apply (verify_inverts_generate_to_the_second (L := Double.libs)
           Double.dev (VStr "u0") 1000900 604800000).
  reflexivity.
Defined.

(** Time spans as [ms] reads them, fractions included. *)
Example ms_reads_time_spans :
  Ms.parse "7d" = Some 604800000 /\
  Ms.parse "1.5h" = Some 5400000 /\
  Ms.parse ".5d" = Some 43200000 /\
  Ms.parse "2.5 hrs" = Some 9000000 /\
  Ms.parse "1 Week" = Some 604800000 /\
  Ms.parse "90" = Some 90 /\
  Ms.parse "-1.5 ms" = Some (-2) /\
  Ms.parse "1." = None /\
  Ms.parse "soon" = None /\
  token_lifetime {| NODE_ENV := None; env_JWT_SECRET := None;
                    env_JWT_EXPIRES_IN := Some "1.5h" |} = Some 5400.
Proof. repeat apply conj; reflexivity. Qed.

(** C8, as the specification has it, fails: with [JWT_EXPIRES_IN=1d] the
    token lives for 86400 seconds while its cookie is kept for 604800000
    milliseconds. *)
Lemma cookie_maxAge_is_not_the_configured_lifetime :
  token_lifetime Double.one_day = Some 86400 /\
  generateToken (L := Double.libs) Double.one_day (VStr "u0") 1000 =
    Ok (Jws {| userId := VStr "u0"; iat := 1000; exp := 1000 + 86400 |}
            "s3cret.u0") /\
  set_cookies
    (exchange (run (L := Double.libs) Double.empty_world fresh
                 (setTokenCookie Double.one_day
                    (Jws {| userId := VStr "u0"; iat := 1000;
                            exp := 1000 + 86400 |} "s3cret.u0")))) =
    [("token",
      Jws {| userId := VStr "u0"; iat := 1000; exp := 1000 + 86400 |}
          "s3cret.u0",
      cookie_contract true 604800000)] /\
  cookie_contract true 604800000 <> cookie_contract true (1000 * 86400).
Proof.
  repeat split; try reflexivity. discriminate.
Qed.

(* ------------------------------------------------------------------ *)
(** ** The gatekeeper *)

Section Gatekeeper.
Context `{L : Libraries}.
Variable env : process_env.

(** C3, as the code has it. The middleware reads the cookie named [token]
    and decides in this order: no cookies, no such cookie or an empty one,
    401; a token that is no token, whose signature is not this server's or
    whose expiry has passed, 401; a verified token whose user the store
    does not hold, 401; a lookup that the store rejects (it cannot be
    reached, or the token's [userId] is not a string), 500 from the
    [catch]; otherwise the request is handed on, with the user's [id],
    [name], [email] and [createdAt] attached as [req.user] and everything
    else as it came. In every case exactly one of the two happens, once: a
    response is sent or the downstream handler is called. *)
Theorem authenticate_decides_in_order (w : World) (req : Req.t) :
  run w fresh (authenticate env req forward) =
    match Req.cookies req with
    | None =>
        (w, responded 401
              [ ("success", VBool false);
                ("message", VStr "Authentication required. Please sign in.") ],
         Ok tt)
    | Some cookies =>
        match lookup cookies "token" with
        | None =>
            (w, responded 401
                  [ ("success", VBool false);
                    ("message",
                     VStr "Authentication required. Please sign in.") ],
             Ok tt)
        | Some (Opaque raw) =>
            if String.eqb raw EmptyString then
              (w, responded 401
                    [ ("success", VBool false);
                      ("message",
                       VStr "Authentication required. Please sign in.") ],
               Ok tt)
            else
              (w, responded 401
                    [ ("success", VBool false);
                      ("message",
                       VStr "Invalid or expired token. Please sign in again.") ],
               Ok tt)
        | Some (Jws payload signature) =>
            if String.eqb signature (hs256 (JWT_SECRET env) payload)
               && (clock w <? exp payload)
            then
              if online (db w) then
                match userId payload with
                | VStr i =>
                    match find (Prisma.by_id i) (users (db w)) with
                    | None =>
                        (w, responded 401
                              [ ("success", VBool false);
                                ("message",
                                 VStr "User not found. Please sign in again.") ],
                         Ok tt)
                    | Some u =>
                        (w,
                         {| set_cookies := []; sent := []; console := [];
                            forwarded :=
                              [ {| Req.body := Req.body req;
                                   Req.cookies := Req.cookies req;
                                   Req.user :=
                                     Some [ ("id", VStr (User.id u));
                                            ("name", VStr (User.name u));
                                            ("email", VStr (User.email u));
                                            ("createdAt",
                                             VDate (User.createdAt u)) ];
                                   Req.errors := Req.errors req |} ] |},
                         Ok tt)
                    end
                | _ =>
                    (w,
                     {| set_cookies := [];
                        sent := [(500,
                                  [ ("success", VBool false);
                                    ("message",
                                     VStr "Internal server error during authentication") ])];
                        console := [("Authentication error:",
                                     Prisma.ValidationError)];
                        forwarded := [] |},
                     Ok tt)
                end
              else
                (w,
                 {| set_cookies := [];
                    sent := [(500,
                              [ ("success", VBool false);
                                ("message",
                                 VStr "Internal server error during authentication") ])];
                    console := [("Authentication error:",
                                 Prisma.InitializationError)];
                    forwarded := [] |},
                 Ok tt)
            else
              (w, responded 401
                    [ ("success", VBool false);
                      ("message",
                       VStr "Invalid or expired token. Please sign in again.") ],
               Ok tt)
        end
    end /\
  (List.length (sent (exchange (run w fresh (authenticate env req forward)))) +
   List.length
     (forwarded (exchange (run w fresh (authenticate env req forward)))) = 1)%nat.
Proof.
  unfold authenticate, cookie_token, exchange.
  destruct (Req.cookies req) as [cookies|] eqn:Ec; [|split; reflexivity].
  destruct (lookup cookies "token") as [[raw|payload signature]|];
    [| |split; reflexivity].
  - cbn [no_token the_token].
    destruct (String.eqb raw EmptyString); split; reflexivity.
  - cbn [no_token the_token].
    cbn -[Z.leb Z.ltb Prisma.findUnique_id String.eqb].
    unfold verifyToken, Jwt.verify, try_sync.
    destruct (String.eqb signature (hs256 (JWT_SECRET env) payload));
      [|split; reflexivity].
    rewrite Z.ltb_antisym.
    destruct (exp payload <=? clock w); [split; reflexivity|].
    cbn -[Prisma.findUnique_id String.eqb]. unfold Prisma.findUnique_id.
    destruct (online (db w)); [|split; reflexivity].
    destruct (userId payload); try (split; reflexivity).
    destruct (find (Prisma.by_id s) (users (db w))) as [u|];
      [|split; reflexivity].
    cbn. unfold Req.with_user. rewrite Ec. split; reflexivity.
Qed.

End Gatekeeper.

(** C3, as the specification has it, fails: Ann's cookie holds a token
    that verifies and Ann is in the table, but the store cannot be reached;
    the answer is 500 and the downstream handler is not called. *)
Lemma verified_token_with_store_down_is_answered_500 :
  Jwt.verify (L := Double.libs)
    (Jws {| userId := VStr "u0"; iat := 1000; exp := 605800 |}
         "your-super-secret-key-change-this-in-production.u0")
    (JWT_SECRET Double.dev) 2000 =
    Ok {| userId := VStr "u0"; iat := 1000; exp := 605800 |} /\
  find (Prisma.by_id "u0") [Double.ann] = Some Double.ann /\
  run (L := Double.libs)
      {| db := {| users := [Double.ann]; online := false; seq := 1 |};
         clock := 2000 |}
      fresh
      (authenticate (L := Double.libs) Double.dev
         (Double.with_cookie
            (Jws {| userId := VStr "u0"; iat := 1000; exp := 605800 |}
                 "your-super-secret-key-change-this-in-production.u0"))
         forward) =
    ({| db := {| users := [Double.ann]; online := false; seq := 1 |};
        clock := 2000 |},
     {| set_cookies := [];
        sent := [(500,
                  [ ("success", VBool false);
                    ("message",
                     VStr "Internal server error during authentication") ])];
        console := [("Authentication error:", Prisma.InitializationError)];
        forwarded := [] |},
     Ok tt).
Proof.
  repeat apply conj; reflexivity.
Qed.

(* ------------------------------------------------------------------ *)
(** ** What the responses carry *)

Section Controllers.
Context `{L : Libraries}.
Variable env : process_env.

Lemma select_projection (u : User.t) :
  Prisma.select projection (User.row u) =
    [ ("id", VStr (User.id u)); ("name", VStr (User.name u));
      ("email", VStr (User.email u)); ("createdAt", VDate (User.createdAt u)) ].
Proof. reflexivity. Qed.

Lemma findUnique_id_projected (d : Db) (i : value) (o : obj) :
  Prisma.findUnique_id d i projection = Ok (Some o) ->
  keys o = projection /\ has_key "password" (VObj o) = false.
Proof.
  unfold Prisma.findUnique_id.
  destruct (online d); [|discriminate].
  destruct i; try discriminate.
  destruct (find _ _) as [u|]; [|discriminate].
  cbn [option_map]. rewrite select_projection.
  intros H. injection H as <-. split; reflexivity.
Qed.

Lemma listed_failures_have_no_password (errs : list FieldError) :
  existsb (has_key "password")
          (map (fun err => VObj [ ("field", VStr (path err));
                                  ("message", VStr (msg err)) ]) errs) = false.
Proof. induction errs as [|e rest IH]; [reflexivity|exact IH]. Qed.

(** C1. The responses of sign-up and of sign-in, from the controllers and
    from their routes, and the request the middleware passes on, never
    carry a [password] property; the [user] of a success response and the
    user attached to the request have exactly the properties [id], [name],
    [email] and [createdAt]. *)
Theorem password_never_leaves (w : World) (req : Req.t) :
  Forall discreet (sent (exchange (run w fresh (signUp env req)))) /\
  Forall discreet (sent (exchange (run w fresh (signIn env req)))) /\
  Forall discreet (sent (exchange (run w fresh (post_signup env req)))) /\
  Forall discreet (sent (exchange (run w fresh (post_signin env req)))) /\
  Forall attached_discreetly
         (forwarded (exchange (run w fresh (authenticate env req forward)))).
Proof.
  split; [|split; [|split; [|split]]].
  - unfold signUp, exchange. exec.
    all: cbn; repeat constructor.
  - unfold signIn, exchange. exec.
    all: cbn; repeat constructor.
  - unfold post_signup, Chain.middleware.
    generalize (fold_left Chain.apply validateSignUp req). intros r.
    unfold checkValidation, signUp, exchange.
    exec. all: cbn; repeat constructor.
    all: cbn; now rewrite listed_failures_have_no_password.
  - unfold post_signin, Chain.middleware.
    generalize (fold_left Chain.apply validateSignIn req). intros r.
    unfold checkValidation, signIn, exchange.
    exec. all: cbn; repeat constructor.
    all: cbn; now rewrite listed_failures_have_no_password.
  - unfold authenticate, exchange.
    destruct (no_token (cookie_token req)); [cbn; constructor|].
    cbn -[Jwt.verify Prisma.findUnique_id]. unfold verifyToken, try_sync.
    destruct (Jwt.verify _ _ _) as [decoded|e]; [|cbn; constructor].
    cbn -[Prisma.findUnique_id].
    destruct (Prisma.findUnique_id _ _ _) as [[o|]|e] eqn:E;
      cbn; constructor; [|constructor].
    destruct (findUnique_id_projected _ _ _ E) as [Hk Hp].
    exists o. cbn. auto.
Qed.

End Controllers.

Section Responses.
Context `{L : Libraries}.
Variable env : process_env.

(** C10. Every response of the controllers, of the validation helper and
    of the middleware, and so of the three routes, has a boolean [success]
    that is [true] exactly when the status is a 2xx one. *)
Theorem success_flag_matches_status (w : World) (req : Req.t) :
  Forall flagged (sent (exchange (run w fresh (signUp env req)))) /\
  Forall flagged (sent (exchange (run w fresh (signIn env req)))) /\
  Forall flagged (sent (exchange (run w fresh (signOut env req)))) /\
  Forall flagged (sent (exchange (run w fresh (checkValidation req forward)))) /\
  Forall flagged (sent (exchange (run w fresh (authenticate env req forward)))) /\
  Forall flagged (sent (exchange (run w fresh (post_signup env req)))) /\
  Forall flagged (sent (exchange (run w fresh (post_signin env req)))) /\
  Forall flagged (sent (exchange (run w fresh (post_signout env req)))).
Proof.
  repeat split.
  - unfold signUp, exchange. exec. all: cbn; repeat constructor.
  - unfold signIn, exchange. exec. all: cbn; repeat constructor.
  - unfold signOut, exchange. exec. all: cbn; repeat constructor.
  - unfold checkValidation, exchange. exec. all: cbn; repeat constructor.
  - unfold authenticate, exchange. exec. all: cbn; repeat constructor.
  - unfold post_signup, Chain.middleware, checkValidation, signUp, exchange.
    exec. all: cbn; repeat constructor.
  - unfold post_signin, Chain.middleware, checkValidation, signIn, exchange.
    exec. all: cbn; repeat constructor.
  - unfold post_signout, authenticate, signOut, exchange.
    exec. all: cbn; repeat constructor.
Qed.

(** Sign-in failures when the password is text. Take two sign-in requests
    that both provide an email and a password, against a store that
    answers. If the email of the first belongs to no stored user, and the
    email of the second belongs to a stored user whose hash the password
    does not match, the two exchanges are equal: one response, status 401,
    the same body, no cookie. *)
Lemma text_signin_failures_look_alike
    (w : World) (reqA reqB : Req.t) (u : User.t) :
  falsy (field (Req.body reqA) "email") = false ->
  falsy (field (Req.body reqA) "password") = false ->
  falsy (field (Req.body reqB) "email") = false ->
  falsy (field (Req.body reqB) "password") = false ->
  online (db w) = true ->
  find (Prisma.by_email (text (field (Req.body reqA) "email")))
       (users (db w)) = None ->
  find (Prisma.by_email (text (field (Req.body reqB) "email")))
       (users (db w)) = Some u ->
  bcrypt_compare (text (field (Req.body reqB) "password"))
                 (User.password u) = false ->
  exchange (run w fresh (signIn env reqA)) =
    exchange (run w fresh (signIn env reqB)) /\
  exchange (run w fresh (signIn env reqA)) =
    responded 401 [ ("success", VBool false);
                    ("message", VStr "Invalid email or password") ].
Proof.
  intros EA PA EB PB Hon HA HB Hpw.
  unfold signIn, exchange.
  rewrite EA, PA, EB, PB.
  cbn -[falsy]. unfold Prisma.findUnique_email. rewrite Hon, HA, HB.
  cbn. rewrite Hpw. cbn. split; reflexivity.
Qed.

Lemma get_of_text (b : list (string * string)) (k : string) :
  get (Untyped.of_text b) k =
    match lookup b k with
    | Some s => VStr s
    | None => VUndefined
    end.
Proof.
  induction b as [|[k' v] b IH]; [reflexivity|].
  cbn. now destruct (String.eqb k k').
Qed.

(** On a body whose fields are strings, [Untyped.signIn] is [signIn]. *)
Lemma signIn_on_text (req : Req.t) :
  Untyped.signIn env (Untyped.of_text (Req.body req)) = signIn env req.
Proof.
  unfold Untyped.signIn, signIn, field.
  rewrite !get_of_text.
  destruct (lookup (Req.body req) "email") as [e|];
    destruct (lookup (Req.body req) "password") as [p|]; try reflexivity.
  cbn [Untyped.falsy falsy orb].
  now destruct (String.eqb e EmptyString); [rewrite ?orb_true_r|].
Qed.

(** C2 fails on the code. The body of a sign-in holds a password that is
    not a string and not falsy: a number, [true], an array or an object.
    Against a store that answers, an email that belongs to no stored user
    is answered 401, and an email that belongs to a stored user is answered
    500, because [bcrypt.compare] rejects the call and the [catch] takes
    over: the two answers tell whether the email is registered. *)
Theorem password_that_is_no_text_tells_registered_emails
    (w : World) (body : obj) (e : string) (u : User.t) :
  get body "email" = VStr e ->
  e <> EmptyString ->
  Untyped.falsy (get body "password") = false ->
  (forall s, get body "password" <> VStr s) ->
  online (db w) = true ->
  (find (Prisma.by_email e) (users (db w)) = None ->
   run w fresh (Untyped.signIn env body) =
     (w, responded 401 [ ("success", VBool false);
                         ("message", VStr "Invalid email or password") ],
      Ok tt)) /\
  (find (Prisma.by_email e) (users (db w)) = Some u ->
   run w fresh (Untyped.signIn env body) =
     (w,
      {| set_cookies := [];
         sent := [(500, [ ("success", VBool false);
                          ("message", VStr "Internal server error") ])];
         console :=
           [("Sign in error:",
             Error "Error"
               ("Illegal arguments: " ++
                Untyped.typeof (get body "password") ++ ", string"))];
         forwarded := [] |},
      Ok tt)).
Proof.
  intros He Hne Hp Hns Hon.
  apply String.eqb_neq in Hne.
  unfold Untyped.signIn. rewrite He. cbn [Untyped.falsy].
  rewrite Hne, Hp. cbn [orb Untyped.findUnique].
  split; intros Hf.
  - cbn. unfold Prisma.findUnique_email. now rewrite Hon, Hf.
  - cbn -[append]. unfold Prisma.findUnique_email. rewrite Hon, Hf.
    cbn -[append].
    destruct (get body "password") as [| | | |s| | |] eqn:Ep;
      try reflexivity.
    now destruct (Hns s).
Qed.

(** Served alone, a sign-up for an email that is already stored is answered
    400 and leaves the store as it was. *)
Lemma signUp_rejects_registered_email (w : World) (req : Req.t) (u : User.t) :
  falsy (field (Req.body req) "name") = false ->
  falsy (field (Req.body req) "email") = false ->
  falsy (field (Req.body req) "password") = false ->
  (String.length (text (field (Req.body req) "password")) <? 6)%nat = false ->
  online (db w) = true ->
  find (Prisma.by_email (text (field (Req.body req) "email")))
       (users (db w)) = Some u ->
  run w fresh (signUp env req) =
    (w, responded 400 [ ("success", VBool false);
                        ("message", VStr "Email already registered") ],
     Ok tt).
Proof.
  intros N E P Len Hon Hu. unfold signUp.
  rewrite N, E, P, Len.
  cbn -[falsy]. unfold Prisma.findUnique_email. rewrite Hon, Hu.
  reflexivity.
Qed.

End Responses.

(** With text passwords, at a concrete instance: an unknown address and
    Ann's address with a wrong password. *)
Example ann_text_signin_failures_look_alike :
  exchange (run (L := Double.libs) Double.world_with_ann fresh
              (signIn (L := Double.libs) Double.dev
                 (Double.post [("email", "nobody@x.com");
                               ("password", "secret1")]))) =
    exchange (run (L := Double.libs) Double.world_with_ann fresh
                (signIn (L := Double.libs) Double.dev
                   (Double.post [("email", "a@x.com");
                                 ("password", "wrong")]))) /\
  exchange (run (L := Double.libs) Double.world_with_ann fresh
              (signIn (L := Double.libs) Double.dev
                 (Double.post [("email", "nobody@x.com");
                               ("password", "secret1")]))) =
    responded 401 [ ("success", VBool false);
                    ("message", VStr "Invalid email or password") ].
Proof.
  apply (text_signin_failures_look_alike (L := Double.libs) Double.dev
           Double.world_with_ann
           (Double.post [("email", "nobody@x.com"); ("password", "secret1")])
           (Double.post [("email", "a@x.com"); ("password", "wrong")])
           Double.ann); reflexivity.
Qed.

(** C2, at a concrete instance: the password is the number 123456, sent
    once with an unknown address and once with Ann's. *)
Lemma password_that_is_no_text_tells_registered_emails_witness :
  run (L := Double.libs) Double.world_with_ann fresh
      (Untyped.signIn (L := Double.libs) Double.dev
         [("email", VStr "nobody@x.com"); ("password", VNum 123456)]) =
    (Double.world_with_ann,
     responded 401 [ ("success", VBool false);
                     ("message", VStr "Invalid email or password") ],
     Ok tt) /\
  run (L := Double.libs) Double.world_with_ann fresh
      (Untyped.signIn (L := Double.libs) Double.dev
         [("email", VStr "a@x.com"); ("password", VNum 123456)]) =
    (Double.world_with_ann,
     {| set_cookies := [];
        sent := [(500, [ ("success", VBool false);
                         ("message", VStr "Internal server error") ])];
        console :=
          [("Sign in error:",
            Error "Error" "Illegal arguments: number, string")];
        forwarded := [] |},
     Ok tt).
Proof.
  split.
  - apply (proj1 (password_that_is_no_text_tells_registered_emails
                    (L := Double.libs) Double.dev Double.world_with_ann
                    [("email", VStr "nobody@x.com"); ("password", VNum 123456)]
                    "nobody@x.com" Double.ann
                    eq_refl ltac:(discriminate) eq_refl
                    ltac:(discriminate) eq_refl)).
    reflexivity.
  - apply (proj2 (password_that_is_no_text_tells_registered_emails
                    (L := Double.libs) Double.dev Double.world_with_ann
                    [("email", VStr "a@x.com"); ("password", VNum 123456)]
                    "a@x.com" Double.ann
                    eq_refl ltac:(discriminate) eq_refl
                    ltac:(discriminate) eq_refl)).
    reflexivity.
Defined.

(* ------------------------------------------------------------------ *)
(** ** Requests in flight together *)

Section Store.
Context `{L : Libraries}.

Lemma not_stored_email (e : string) (us : list User.t) :
  existsb (Prisma.by_email e) us = false -> ~ In e (map User.email us).
Proof.
  induction us as [|u us IH]; cbn; [tauto|].
  intros H. apply orb_false_elim in H. destruct H as [Hu Hus].
  intros [Heq|Hin]; [|exact (IH Hus Hin)].
  unfold Prisma.by_email in Hu. now rewrite Heq, String.eqb_refl in Hu.
Qed.

(** The unique index at work: an insert never gives two rows one email. *)
Lemma create_keeps_emails_unique (d : Db) now n e p sel :
  emails_unique d -> emails_unique (fst (Prisma.create d now n e p sel)).
Proof.
  unfold Prisma.create, emails_unique. intros H.
  destruct (online d); [|exact H].
  destruct (existsb (Prisma.by_email e) (users d)) eqn:E; [exact H|].
  destruct (existsb (Prisma.by_id _) (users d)); [exact H|].
  cbn. rewrite map_app. cbn.
  apply Permutation_NoDup with (l := e :: map User.email (users d)).
  - apply Permutation_cons_append.
  - constructor; [apply not_stored_email; exact E|exact H].
Qed.

Lemma perform_keeps_emails_unique {X} (e : effect X) (w : World) (x : Exchange) :
  emails_unique (db w) -> emails_unique (db (fst (fst (perform w x e)))).
Proof.
  intros H. destruct e; cbn; try exact H.
  pose proof (create_keeps_emails_unique (db w) (clock w) name email password
                select H) as H'.
  destruct (Prisma.create _ _ _ _ _ _). exact H'.
Qed.

Lemma settle_keeps_emails_unique {A} (p : prog A) (w : World) (x : Exchange) :
  emails_unique (db w) -> emails_unique (db (fst (fst (settle w x p)))).
Proof.
  revert w x. induction p as [a|e|X e k IH]; intros w x H; cbn; try exact H.
  destruct (suspends e); [exact H|].
  pose proof (perform_keeps_emails_unique e w x H) as H'.
  destruct (perform w x e) as [[w' x'] r]. now apply IH.
Qed.

Lemma turn_keeps_emails_unique {A} (p : prog A) (w : World) (x : Exchange) :
  emails_unique (db w) -> emails_unique (db (fst (fst (turn w x p)))).
Proof.
  intros H. destruct p as [a|e|X e k]; cbn; try exact H.
  pose proof (perform_keeps_emails_unique e w x H) as H'.
  destruct (perform w x e) as [[w' x'] r].
  now apply settle_keeps_emails_unique.
Qed.

(** However two handlers are interleaved, the store never holds two users
    with one email. *)
Lemma interleave_keeps_emails_unique {A} (schedule : list bool) (w : World)
    (a b : Exchange * prog A) :
  emails_unique (db w) ->
  emails_unique (db (fst (fst (interleave schedule w a b)))).
Proof.
  revert w a b. induction schedule as [|[] rest IH]; intros w a b H; cbn;
    [exact H| |].
  - pose proof (turn_keeps_emails_unique (snd a) w (fst a) H) as H'.
    destruct (turn w (fst a) (snd a)) as [[w' x'] p']. now apply IH.
  - pose proof (turn_keeps_emails_unique (snd b) w (fst b) H) as H'.
    destruct (turn w (fst b) (snd b)) as [[w' x'] p']. now apply IH.
Qed.

End Store.

(** C6, on the code. Two sign-ups for one unregistered email, both past
    the [findUnique] pre-check before either reaches [create]: the first
    is answered 201, the second has its insert rejected by the unique
    index and is answered 500 by the [catch], not 400. One user is
    stored. *)
Theorem racing_signup_is_answered_500 :
  exists w' xa xb,
    interleave (L := Double.libs) [true; false; true; false; true; false]
      Double.empty_world
      (fresh, signUp (L := Double.libs) Double.dev
                (Double.post [("name", "Ann"); ("email", "a@x.com");
                              ("password", "secret1")]))
      (fresh, signUp (L := Double.libs) Double.dev
                (Double.post [("name", "Bob"); ("email", "a@x.com");
                              ("password", "hunter22")])) =
      (w', (xa, Ret tt), (xb, Ret tt)) /\
    map fst (sent xa) = [201] /\
    sent xb = [(500, [ ("success", VBool false);
                       ("message", VStr "Internal server error") ])] /\
    console xb = [("Sign up error:", Prisma.UniqueConstraintError)] /\
    map User.name (users (db w')) = ["Ann"].
Proof.
  do 3 eexists. split; [vm_compute; reflexivity|].
  repeat split.
Qed.

(* ------------------------------------------------------------------ *)
(** ** Route validation *)

Lemma fold_step (f : string) (items : list Chain.item) (v : option string)
    (errs : list FieldError) :
  fold_left (Chain.step f) items (v, errs) =
    (sanitized items v, (errs ++ failures f items v)%list).
Proof.
  revert v errs. induction items as [|[g|test m] rest IH]; intros v errs; cbn.
  - now rewrite app_nil_r.
  - apply IH.
  - unfold failure. destruct (test (text v)); rewrite IH; cbn; [reflexivity|].
    now rewrite <- app_assoc.
Qed.

Lemma apply_unfold (req : Req.t) (c : Chain.t) :
  Chain.apply req c =
    {| Req.body :=
         match sanitized (rev (Chain.items c))
                         (lookup (Req.body req) (Chain.target c)) with
         | Some s => Chain.assign (Req.body req) (Chain.target c) s
         | None => Req.body req
         end;
       Req.cookies := Req.cookies req;
       Req.user := Req.user req;
       Req.errors :=
         (Req.errors req ++
          failures (Chain.target c) (rev (Chain.items c))
                   (lookup (Req.body req) (Chain.target c)))%list |}.
Proof. unfold Chain.apply. now rewrite fold_step. Qed.

Lemma lookup_assign_same (b : list (string * string)) (k v : string) :
  lookup (Chain.assign b k v) k = Some v.
Proof.
  induction b as [|[k' v'] rest IH]; cbn; [now rewrite String.eqb_refl|].
  destruct (String.eqb k k') eqn:E; cbn; rewrite ?String.eqb_refl, ?E; auto.
Qed.

Lemma lookup_assign_other (b : list (string * string)) (k k' v : string) :
  String.eqb k' k = false ->
  lookup (Chain.assign b k v) k' = lookup b k'.
Proof.
  intros Hne. induction b as [|[k0 v0] rest IH]; cbn; [now rewrite Hne|].
  destruct (String.eqb k k0) eqn:E; cbn.
  - apply String.eqb_eq in E. subst k0. now rewrite Hne.
  - now rewrite IH.
Qed.

Lemma assign_same (b : list (string * string)) (k v : string) :
  lookup b k = Some v -> Chain.assign b k v = b.
Proof.
  induction b as [|[k0 v0] rest IH]; cbn; [discriminate|].
  destruct (String.eqb k k0) eqn:E.
  - apply String.eqb_eq in E. intros H. injection H as ->. now subst.
  - intros H. now rewrite IH.
Qed.

Lemma assign_assign (b : list (string * string)) (k v1 v2 : string) :
  Chain.assign (Chain.assign b k v1) k v2 = Chain.assign b k v2.
Proof.
  induction b as [|[k0 v0] rest IH]; cbn; [now rewrite String.eqb_refl|].
  destruct (String.eqb k k0) eqn:E; cbn; rewrite ?String.eqb_refl, ?E, ?IH;
    reflexivity.
Qed.

Lemma assign_through (b : list (string * string)) (k k' v0 v1 v2 n : string) :
  String.eqb k k' = false ->
  lookup b k = Some v0 ->
  Chain.assign (Chain.assign (Chain.assign b k v1) k' n) k v2 =
    Chain.assign (Chain.assign b k' n) k v2.
Proof.
  intros Hne. assert (Hne' : String.eqb k' k = false)
    by (now rewrite String.eqb_sym).
  induction b as [|[k0 w] rest IH]; cbn; [discriminate|].
  destruct (String.eqb k k0) eqn:E.
  - apply String.eqb_eq in E. subst k0. intros _.
    cbn. rewrite Hne'. cbn. now rewrite String.eqb_refl.
  - intros H. cbn.
    destruct (String.eqb k' k0) eqn:E'; cbn; rewrite ?E, ?Hne.
    + now rewrite assign_assign.
    + now rewrite IH.
Qed.

Section Validation.
Context `{L : Libraries}.
Variable env : process_env.

Lemma keep_password (b : list (string * string)) :
  match lookup b "password" with
  | Some s => Chain.assign b "password" s
  | None => b
  end = b.
Proof.
  destruct (lookup b "password") as [s|] eqn:E; [|reflexivity].
  now apply assign_same.
Qed.

Lemma validateSignUp_applied (req : Req.t) :
  fold_left Chain.apply validateSignUp req =
    {| Req.body :=
         Chain.assign
           (Chain.assign (Req.body req) "name"
              (Validator.trim (text (lookup (Req.body req) "name"))))
           "email" (controller_email (Req.body req));
       Req.cookies := Req.cookies req;
       Req.user := Req.user req;
       Req.errors := (Req.errors req ++ signup_failures (Req.body req))%list |}.
Proof.
  cbn [fold_left validateSignUp]. rewrite !apply_unfold.
  cbn -[Validator.trim Validator.isEmpty Validator.isLength lookup
        Chain.assign].
  rewrite !(lookup_assign_other _ "name" "email") by reflexivity.
  cbn -[Validator.trim Validator.isEmpty Validator.isLength lookup
        Chain.assign].
  rewrite !(lookup_assign_other _ "email" "password") by reflexivity.
  rewrite !(lookup_assign_other _ "name" "password") by reflexivity.
  set (b2 := Chain.assign (Chain.assign _ _ _) _ _).
  assert (Hp : lookup b2 "password" = lookup (Req.body req) "password").
  { unfold b2.
    rewrite !(lookup_assign_other _ "email" "password") by reflexivity.
    now rewrite !(lookup_assign_other _ "name" "password") by reflexivity. }
  pose proof (keep_password b2) as K. rewrite Hp in K. rewrite K.
  unfold signup_failures. f_equal.
  now rewrite !app_nil_r, <- !app_assoc.
Qed.

Lemma validateSignIn_applied (req : Req.t) :
  fold_left Chain.apply validateSignIn req =
    {| Req.body :=
         Chain.assign (Req.body req) "email" (controller_email (Req.body req));
       Req.cookies := Req.cookies req;
       Req.user := Req.user req;
       Req.errors := (Req.errors req ++ signin_failures (Req.body req))%list |}.
Proof.
  cbn [fold_left validateSignIn]. rewrite !apply_unfold.
  cbn -[Validator.trim Validator.isEmpty Validator.isLength lookup
        Chain.assign].
  rewrite !(lookup_assign_other _ "email" "password") by reflexivity.
  set (b1 := Chain.assign _ _ _).
  assert (Hp : lookup b1 "password" = lookup (Req.body req) "password").
  { unfold b1.
    now rewrite !(lookup_assign_other _ "email" "password") by reflexivity. }
  pose proof (keep_password b1) as K. rewrite Hp in K. rewrite K.
  unfold signin_failures. f_equal.
  now rewrite !app_nil_r, <- !app_assoc.
Qed.

End Validation.

Section SignUpValidation.
Context `{L : Libraries}.
Variable env : process_env.

Lemma signup_failures_nil (b : list (string * string)) :
  signup_rules_pass b = true -> signup_failures b = [].
Proof.
  unfold signup_rules_pass, signup_failures. intros H.
  repeat (apply andb_prop in H; destruct H as [H ?]).
  repeat match goal with E : _ = true |- _ => rewrite E; clear E end.
  reflexivity.
Qed.


Lemma not_empty_not_falsy (s : string) :
  Validator.isEmpty s = false -> falsy (Some s) = false.
Proof. destruct s; [discriminate|reflexivity]. Qed.

Lemma long_enough (s : string) :
  Validator.isLength 6 None s = true ->
  (String.length s <? 6)%nat = false /\ falsy (Some s) = false.
Proof.
  unfold Validator.isLength. rewrite andb_true_r. intros H.
  apply Nat.leb_le in H. split.
  - apply Nat.ltb_ge. exact H.
  - destruct s; [cbn in H; lia|reflexivity].
Qed.

(** What the controller reads after [validateSignUp], once its rules
    pass. *)
Lemma signup_controller_view (req : Req.t) :
  Req.errors req = [] ->
  signup_rules_pass (Req.body req) = true ->
  post_signup env req =
    signUp env (fold_left Chain.apply validateSignUp req) /\
  falsy (field (Req.body (fold_left Chain.apply validateSignUp req)) "name")
    = false /\
  field (Req.body (fold_left Chain.apply validateSignUp req)) "email" =
    Some (controller_email (Req.body req)) /\
  falsy (field (Req.body (fold_left Chain.apply validateSignUp req))
               "password") = false /\
  (String.length
     (text (field (Req.body (fold_left Chain.apply validateSignUp req))
                  "password")) <? 6)%nat = false.
Proof.
  intros Hfresh Hpass.
  unfold post_signup, Chain.middleware, checkValidation.
  rewrite validateSignUp_applied, Hfresh. cbn [app Req.errors Req.body].
  rewrite (signup_failures_nil _ Hpass). cbn [List.length Nat.eqb negb].
  split; [reflexivity|].
  unfold signup_rules_pass in Hpass.
  repeat (apply andb_prop in Hpass; destruct Hpass as [Hpass ?]).
  apply negb_true_iff in Hpass.
  repeat match goal with
         | E : negb _ = true |- _ => apply negb_true_iff in E
         end.
  unfold field.
  rewrite lookup_assign_same.
  rewrite (lookup_assign_other _ "email" "name") by reflexivity.
  rewrite lookup_assign_same.
  rewrite !(lookup_assign_other _ _ "password") by reflexivity.
  rewrite (not_empty_not_falsy _ Hpass).
  destruct (lookup (Req.body req) "password") as [p|] eqn:Ep;
    [|discriminate].
  cbn [text] in *.
  match goal with
  | E : Validator.isLength 6 None p = true |- _ =>
      destruct (long_enough p E) as [Hlen Hp]
  end.
  rewrite Hp, Hlen. repeat split.
Qed.


End SignUpValidation.



(* ------------------------------------------------------------------ *)
(** ** Letter case in emails *)

Lemma is_space_lower (c : ascii) :
  Validator.is_space (lower c) = Validator.is_space c.
Proof. destruct c as [[] [] [] [] [] [] [] []]; reflexivity. Qed.

Lemma lower_empty (s : string) :
  String.eqb (toLowerCase s) EmptyString = String.eqb s EmptyString.
Proof. destruct s; reflexivity. Qed.

Lemma ltrim_lower (s : string) :
  Validator.ltrim (toLowerCase s) = toLowerCase (Validator.ltrim s).
Proof.
  induction s as [|c r IH]; [reflexivity|].
  cbn [toLowerCase Validator.ltrim]. rewrite is_space_lower.
  destruct (Validator.is_space c); [exact IH|reflexivity].
Qed.

Lemma rtrim_lower (s : string) :
  Validator.rtrim (toLowerCase s) = toLowerCase (Validator.rtrim s).
Proof.
  induction s as [|c r IH]; [reflexivity|].
  cbn [toLowerCase Validator.rtrim]. rewrite is_space_lower, IH, lower_empty.
  destruct (Validator.is_space c && String.eqb (Validator.rtrim r) EmptyString);
    reflexivity.
Qed.

Lemma trim_lower (s : string) :
  Validator.trim (toLowerCase s) = toLowerCase (Validator.trim s).
Proof. unfold Validator.trim. now rewrite ltrim_lower, rtrim_lower. Qed.

Lemma isEmpty_lower (s : string) :
  Validator.isEmpty (toLowerCase s) = Validator.isEmpty s.
Proof. destruct s; reflexivity. Qed.

Lemma trim_same_case (a b : string) :
  toLowerCase a = toLowerCase b ->
  toLowerCase (Validator.trim a) = toLowerCase (Validator.trim b) /\
  Validator.isEmpty (Validator.trim a) = Validator.isEmpty (Validator.trim b).
Proof.
  intros H.
  assert (E : toLowerCase (Validator.trim a) = toLowerCase (Validator.trim b))
    by (now rewrite <- !trim_lower, H).
  split; [exact E|].
  now rewrite <- (isEmpty_lower (Validator.trim a)), E, isEmpty_lower.
Qed.

Section CaseBlind.
Context `{L : Libraries}.

(** The chains tell no difference between two emails equal up to letter
    case. *)
Lemma chains_are_case_blind (a b : string) :
  toLowerCase a = toLowerCase b ->
  Validator.isEmpty (Validator.trim a) = Validator.isEmpty (Validator.trim b) /\
  isEmail (Validator.trim a) = isEmail (Validator.trim b) /\
  normalizeEmail (Validator.trim a) = normalizeEmail (Validator.trim b).
Proof.
  intros H. destruct (trim_same_case a b H) as [Ht He].
  unfold isEmail, normalizeEmail. now rewrite Ht, He.
Qed.

End CaseBlind.

(** Ann, stored as [a@x.com], signs in as [A@X.COM]; a sign-up for
    [A@X.COM] is refused as a duplicate. *)
Example uppercase_email_matches_stored_user :
  map fst (sent (exchange
     (run (L := Double.libs) Double.world_with_ann fresh
        (post_signin (L := Double.libs) Double.dev
           (Double.post [("email", "A@X.COM"); ("password", "secret1")])))))
    = [200] /\
  sent (exchange
     (run (L := Double.libs) Double.world_with_ann fresh
        (post_signup (L := Double.libs) Double.dev
           (Double.post [("name", "Ann"); ("email", "A@X.COM");
                         ("password", "secret1")]))))
    = [(400, [ ("success", VBool false);
               ("message", VStr "Email already registered") ])].
Proof. split; reflexivity. Qed.

(* ------------------------------------------------------------------ *)
(** ** The examples of the specification, run on the doubles *)

(** A protected request with no cookie, with the cookie that sign-out
    leaves, with a tampered token, and with a valid token of a user who is
    gone: 401 each time. Ann's own token passes. *)
Example protected_route_examples :
  map (fun r => map fst (sent (exchange
         (run (L := Double.libs) Double.world_with_ann fresh
            (authenticate (L := Double.libs) Double.dev r forward)))))
      [ Double.post [];
        Double.with_cookie (Opaque EmptyString);
        Double.with_cookie
          (Jws {| userId := VStr "u0"; iat := 1000; exp := 605800 |} "forged");
        Double.with_cookie
          (Jws {| userId := VStr "u7"; iat := 1000; exp := 605800 |}
               "your-super-secret-key-change-this-in-production.u7");
        Double.with_cookie
          (Jws {| userId := VStr "u0"; iat := 1000; exp := 605800 |}
               "your-super-secret-key-change-this-in-production.u0") ]
    = [ [401]; [401]; [401]; [401]; [] ].
Proof. reflexivity. Qed.

(** Ann signs up: 201, her address in the response, the cookie set. She
    then signs in with a wrong password: 401. *)
Example ann_signs_up_then_mistypes :
  exists w x,
    run (L := Double.libs) Double.empty_world fresh
      (post_signup (L := Double.libs) Double.dev
         (Double.post [("name", "Ann"); ("email", "a@x.com");
                       ("password", "secret1")])) = (w, x, Ok tt) /\
    map fst (sent x) = [201] /\
    map (fun r => get (snd r) "user") (sent x) =
      [VObj [ ("id", VStr "u0"); ("name", VStr "Ann");
              ("email", VStr "a@x.com"); ("createdAt", VDate 1000) ]] /\
    map (fun c => fst (fst c)) (set_cookies x) = ["token"] /\
    sent (exchange
      (run (L := Double.libs) w fresh
         (post_signin (L := Double.libs) Double.dev
            (Double.post [("email", "a@x.com"); ("password", "wrong")])))) =
      [(401, [ ("success", VBool false);
               ("message", VStr "Invalid email or password") ])].
Proof. do 2 eexists. repeat split. Qed.

(* ------------------------------------------------------------------ *)
(** * Further properties of the code *)

Lemma find_none_existsb {A} (f : A -> bool) (l : list A) :
  find f l = None -> existsb f l = false.
Proof.
  induction l as [|a l IH]; cbn; [reflexivity|].
  destruct (f a); [discriminate|exact IH].
Qed.

Lemma find_app_new {A} (f : A -> bool) (l : list A) (a : A) :
  find f l = None -> f a = true -> find f (l ++ [a]) = Some a.
Proof.
  intros Hl Ha. induction l as [|b l IH]; cbn in *; [now rewrite Ha|].
  destruct (f b); [discriminate|now apply IH].
Qed.

Section Journeys.
Context `{L : Libraries}.
Variable env : process_env.

Lemma signUp_success_run (w : World) (req : Req.t) (lifetime : Z) :
  controller_rejects (Req.body req) = false ->
  online (db w) = true ->
  find (Prisma.by_email (text (field (Req.body req) "email")))
       (users (db w)) = None ->
  existsb (Prisma.by_id (cuid (seq (db w)))) (users (db w)) = false ->
  token_lifetime env = Some lifetime ->
  run w fresh (signUp env req) =
    (with_new_user w (new_user w req),
     {| set_cookies :=
          [("token", token_for env (new_user w req) (clock w) lifetime,
            cookie_contract (production env) 604800000)];
        sent :=
          [(201, [ ("success", VBool true);
                   ("message", VStr "User created successfully");
                   ("user", VObj (public (new_user w req))) ])];
        console := []; forwarded := [] |},
     Ok tt).
Proof.
  intros Hc Hon Hfree Hid Hlife.
  unfold controller_rejects in Hc. apply orb_false_elim in Hc.
  destruct Hc as [Hc Hlen].
  unfold token_lifetime in Hlife.
  destruct (Ms.parse (JWT_EXPIRES_IN env)) as [ms|] eqn:Ems; [|discriminate].
  injection Hlife as <-.
  unfold signUp. rewrite Hc, Hlen.
  cbn -[falsy Ms.parse]. unfold Prisma.findUnique_email. rewrite Hon, Hfree.
  cbn -[falsy Ms.parse]. unfold Prisma.create. rewrite Hon.
  rewrite (find_none_existsb _ _ Hfree). cbn [User.id orb]. rewrite Hid.
  cbn -[falsy Ms.parse]. unfold generateToken, Jwt.sign. rewrite Ems.
  cbn -[falsy Ms.parse]. unfold with_new_user. rewrite Hon. reflexivity.
Qed.

Lemma signIn_success_run (w : World) (req : Req.t) (u : User.t)
    (lifetime : Z) :
  falsy (field (Req.body req) "email") = false ->
  falsy (field (Req.body req) "password") = false ->
  online (db w) = true ->
  find (Prisma.by_email (text (field (Req.body req) "email")))
       (users (db w)) = Some u ->
  bcrypt_compare (text (field (Req.body req) "password"))
                 (User.password u) = true ->
  token_lifetime env = Some lifetime ->
  run w fresh (signIn env req) =
    (w,
     {| set_cookies :=
          [("token", token_for env u (clock w) lifetime,
            cookie_contract (production env) 604800000)];
        sent :=
          [(200, [ ("success", VBool true);
                   ("message", VStr "Signed in successfully");
                   ("user", VObj (public u)) ])];
        console := []; forwarded := [] |},
     Ok tt).
Proof.
  intros He Hp Hon Hu Hpw Hlife.
  unfold token_lifetime in Hlife.
  destruct (Ms.parse (JWT_EXPIRES_IN env)) as [ms|] eqn:Ems; [|discriminate].
  injection Hlife as <-.
  unfold signIn. rewrite He, Hp.
  cbn -[falsy Ms.parse]. unfold Prisma.findUnique_email. rewrite Hon, Hu.
  cbn -[falsy Ms.parse]. rewrite Hpw.
  cbn -[falsy Ms.parse]. unfold generateToken, Jwt.sign. rewrite Ems.
  reflexivity.
Qed.


(** X2. Sign-up followed by sign-in. Whenever [bcrypt.compare] accepts a
    password against the hash [bcrypt.hash] gave it, a sign-in with the
    email and password of a sign-up that succeeded is answered 200 with the
    public fields of the user just created, and sets a token cookie for
    that user. *)
Theorem signin_after_signup (w : World) (req : Req.t) (lifetime : Z) :
  (forall p, bcrypt_compare p (bcrypt_hash p 10) = true) ->
  controller_rejects (Req.body req) = false ->
  online (db w) = true ->
  find (Prisma.by_email (text (field (Req.body req) "email")))
       (users (db w)) = None ->
  existsb (Prisma.by_id (cuid (seq (db w)))) (users (db w)) = false ->
  token_lifetime env = Some lifetime ->
  map fst (sent (exchange (run w fresh (signUp env req)))) = [201] /\
  sent (exchange (run (world_of (run w fresh (signUp env req))) fresh
                      (signIn env req))) =
    [(200, [ ("success", VBool true);
             ("message", VStr "Signed in successfully");
             ("user", VObj (public (new_user w req))) ])] /\
  jar (exchange (run (world_of (run w fresh (signUp env req))) fresh
                     (signIn env req))) =
    [("token", token_for env (new_user w req) (clock w) lifetime)].
Proof.
  intros Hb Hc Hon Hfree Hid Hlife.
  rewrite (signUp_success_run w req lifetime Hc Hon Hfree Hid Hlife).
  split; [reflexivity|].
  unfold world_of. cbn [fst].
  unfold controller_rejects in Hc.
  repeat (apply orb_false_elim in Hc; destruct Hc as [Hc ?]).
  rewrite (signIn_success_run (with_new_user w (new_user w req)) req
             (new_user w req) lifetime); auto.
  apply find_app_new; [exact Hfree|].
  unfold Prisma.by_email, new_user. cbn. apply String.eqb_refl.
Qed.

End Journeys.

Section Sessions.
Context `{L : Libraries}.
Variable env : process_env.

(** X3. The cookie of a sign-in opens the gate until the token expires. Take
    a sign-in that succeeds for user [u] at second [clock w], and let any
    later request send back the cookie it set. While the store still finds
    [u] under its id, the middleware at second [t] passes the request on
    with the public fields of [u] attached when [t] is before
    [clock w + lifetime], and answers 401 from then on. *)
Theorem signin_cookie_opens_the_gate (w : World) (req : Req.t) (u : User.t)
    (lifetime t : Z) (b : list (string * string)) :
  falsy (field (Req.body req) "email") = false ->
  falsy (field (Req.body req) "password") = false ->
  online (db w) = true ->
  find (Prisma.by_email (text (field (Req.body req) "email")))
       (users (db w)) = Some u ->
  bcrypt_compare (text (field (Req.body req) "password"))
                 (User.password u) = true ->
  token_lifetime env = Some lifetime ->
  find (Prisma.by_id (User.id u)) (users (db w)) = Some u ->
  run (at_second w t) fresh
      (authenticate env
         (carrying b (jar (exchange (run w fresh (signIn env req)))))
         forward) =
    (at_second w t,
     (if t <? clock w + lifetime then
        {| set_cookies := []; sent := []; console := [];
           forwarded :=
             [Req.with_user
                (carrying b (jar (exchange (run w fresh (signIn env req)))))
                (public u)] |}
      else
        responded 401
          [ ("success", VBool false);
            ("message",
             VStr "Invalid or expired token. Please sign in again.") ]),
     Ok tt).
Proof.
  intros He Hp Hon Hu Hpw Hlife Hid.
  rewrite (signIn_success_run env w req u lifetime He Hp Hon Hu Hpw Hlife).
  unfold exchange, jar, carrying, token_for. cbn [fst snd set_cookies map].
  unfold authenticate, cookie_token. cbn [Req.cookies lookup String.eqb].
  cbn -[Jwt.verify Prisma.findUnique_id Z.ltb Z.add].
  unfold verifyToken, try_sync, Jwt.verify. rewrite String.eqb_refl.
  cbn [exp]. rewrite Z.ltb_antisym.
  destruct (clock w + lifetime <=? t); [reflexivity|].
  cbn -[Prisma.findUnique_id]. unfold Prisma.findUnique_id.
  cbn [db at_second]. rewrite Hon, Hid. reflexivity.
Qed.

(** X4. A [JWT_EXPIRES_IN] that does not parse lets nobody in, and sign-up
    leaves an account behind. With such a setting, a sign-in with the right
    password is answered 500 and sets no cookie; a sign-up that passes
    every check inserts the user, then fails to issue the token, answers
    500 and sets no cookie. *)
Theorem unparsable_lifetime_answers_500 (w : World) :
  token_lifetime env = None ->
  online (db w) = true ->
  (forall req u,
     falsy (field (Req.body req) "email") = false ->
     falsy (field (Req.body req) "password") = false ->
     find (Prisma.by_email (text (field (Req.body req) "email")))
          (users (db w)) = Some u ->
     bcrypt_compare (text (field (Req.body req) "password"))
                    (User.password u) = true ->
     world_of (run w fresh (signIn env req)) = w /\
     set_cookies (exchange (run w fresh (signIn env req))) = [] /\
     sent (exchange (run w fresh (signIn env req))) =
       [(500, [ ("success", VBool false);
                ("message", VStr "Internal server error") ])]) /\
  (forall req,
     controller_rejects (Req.body req) = false ->
     find (Prisma.by_email (text (field (Req.body req) "email")))
          (users (db w)) = None ->
     existsb (Prisma.by_id (cuid (seq (db w)))) (users (db w)) = false ->
     world_of (run w fresh (signUp env req)) =
       with_new_user w (new_user w req) /\
     set_cookies (exchange (run w fresh (signUp env req))) = [] /\
     sent (exchange (run w fresh (signUp env req))) =
       [(500, [ ("success", VBool false);
                ("message", VStr "Internal server error") ])]).
Proof.
  intros Hlife Hon. unfold token_lifetime in Hlife.
  destruct (Ms.parse (JWT_EXPIRES_IN env)) as [ms|] eqn:Ems; [discriminate|].
  split.
  - intros req u He Hp Hu Hpw.
    unfold signIn. rewrite He, Hp.
    cbn -[falsy Ms.parse]. unfold Prisma.findUnique_email. rewrite Hon, Hu.
    cbn -[falsy Ms.parse]. rewrite Hpw.
    cbn -[falsy Ms.parse]. unfold generateToken, Jwt.sign. rewrite Ems.
    repeat split.
  - intros req Hc Hfree Hid.
    unfold controller_rejects in Hc. apply orb_false_elim in Hc.
    destruct Hc as [Hc Hlen].
    unfold signUp. rewrite Hc, Hlen.
    cbn -[falsy Ms.parse]. unfold Prisma.findUnique_email. rewrite Hon, Hfree.
    cbn -[falsy Ms.parse]. unfold Prisma.create. rewrite Hon.
    rewrite (find_none_existsb _ _ Hfree). cbn [User.id orb]. rewrite Hid.
    cbn -[falsy Ms.parse]. unfold generateToken, Jwt.sign. rewrite Ems.
    cbn. unfold with_new_user. rewrite Hon. repeat split.
Qed.

End Sessions.

Section StoreUse.
Context `{L : Libraries}.
Variable env : process_env.

(** X5. Only sign-up writes to the store, and it only appends. Sign-in,
    sign-out, the validation helper and the middleware, and the sign-in
    and sign-out routes, leave the store exactly as they found it, whatever
    the request; the middleware sets no cookie. Sign-up, as a controller or
    as a route, keeps every stored user in place and adds at most one. *)
Theorem only_signup_appends (w : World) (x : Exchange) (req : Req.t) :
  world_of (run w x (signIn env req)) = w /\
  world_of (run w x (signOut env req)) = w /\
  world_of (run w x (checkValidation req forward)) = w /\
  world_of (run w x (authenticate env req forward)) = w /\
  set_cookies (exchange (run w x (authenticate env req forward))) =
    set_cookies x /\
  world_of (run w x (post_signin env req)) = w /\
  world_of (run w x (post_signout env req)) = w /\
  appends_at_most_one w (world_of (run w x (signUp env req))) /\
  appends_at_most_one w (world_of (run w x (post_signup env req))).
Proof.
  unfold world_of, exchange, appends_at_most_one. repeat apply conj.
  - unfold signIn. exec. all: reflexivity.
  - unfold signOut. exec. all: reflexivity.
  - unfold checkValidation. exec. all: reflexivity.
  - unfold authenticate. exec. all: reflexivity.
  - unfold authenticate. exec. all: reflexivity.
  - unfold post_signin, Chain.middleware.
    generalize (fold_left Chain.apply validateSignIn req). intros r.
    unfold checkValidation, signIn. exec. all: reflexivity.
  - unfold post_signout, authenticate, signOut. exec. all: reflexivity.
  - unfold signUp. exec.
    all: cbn; first [left; reflexivity | right; eexists; reflexivity].
  - unfold post_signup, Chain.middleware.
    generalize (fold_left Chain.apply validateSignUp req). intros r.
    unfold checkValidation, signUp. exec.
    all: cbn; first [left; reflexivity | right; eexists; reflexivity].
Qed.

End StoreUse.

Section RouteChecks.
Context `{L : Libraries}.
Variable env : process_env.

Lemma signin_failures_nil (b : list (string * string)) :
  signin_rules_pass b = true -> signin_failures b = [].
Proof.
  unfold signin_rules_pass, signin_failures. intros H.
  repeat (apply andb_prop in H; destruct H as [H ?]).
  repeat match goal with E : _ = true |- _ => rewrite E; clear E end.
  reflexivity.
Qed.


(** What the controller reads after [validateSignIn], once its rules
    pass. *)
Lemma signin_controller_view (req : Req.t) :
  Req.errors req = [] ->
  signin_rules_pass (Req.body req) = true ->
  post_signin env req =
    signIn env (fold_left Chain.apply validateSignIn req) /\
  field (Req.body (fold_left Chain.apply validateSignIn req)) "email" =
    Some (controller_email (Req.body req)) /\
  field (Req.body (fold_left Chain.apply validateSignIn req)) "password" =
    field (Req.body req) "password" /\
  falsy (field (Req.body req) "password") = false.
Proof.
  intros Hfresh Hpass.
  unfold post_signin, Chain.middleware, checkValidation.
  rewrite validateSignIn_applied, Hfresh. cbn [app Req.errors Req.body].
  rewrite (signin_failures_nil _ Hpass). cbn [List.length Nat.eqb negb].
  split; [reflexivity|].
  unfold signin_rules_pass in Hpass.
  repeat (apply andb_prop in Hpass; destruct Hpass as [Hpass ?]).
  repeat match goal with
         | E : negb _ = true |- _ => apply negb_true_iff in E
         end.
  unfold field.
  rewrite lookup_assign_same.
  rewrite !(lookup_assign_other _ _ "password") by reflexivity.
  destruct (lookup (Req.body req) "password") as [p|] eqn:Ep;
    [|discriminate].
  cbn [text] in *.
  repeat split. now apply not_empty_not_falsy.
Qed.


(** X9. The chains never touch the password. After [validateSignUp] and
    after [validateSignIn] the controller reads the password exactly as it
    was sent, absent if it was absent and never trimmed; a name that was
    sent arrives trimmed; cookies are passed through. *)
Theorem validation_leaves_password_verbatim (req : Req.t) :
  field (Req.body (fold_left Chain.apply validateSignUp req)) "password" =
    field (Req.body req) "password" /\
  field (Req.body (fold_left Chain.apply validateSignIn req)) "password" =
    field (Req.body req) "password" /\
  (forall n, field (Req.body req) "name" = Some n ->
     field (Req.body (fold_left Chain.apply validateSignUp req)) "name" =
       Some (Validator.trim n)) /\
  Req.cookies (fold_left Chain.apply validateSignUp req) = Req.cookies req /\
  Req.cookies (fold_left Chain.apply validateSignIn req) = Req.cookies req.
Proof.
  rewrite validateSignUp_applied, validateSignIn_applied.
  unfold field. cbn [Req.body Req.cookies].
  rewrite !(lookup_assign_other _ _ "password") by reflexivity.
  rewrite (lookup_assign_other _ "email" "name") by reflexivity.
  rewrite !lookup_assign_same.
  repeat split. intros n Hn. now rewrite Hn.
Qed.

Lemma signup_route_duplicate_run (w : World)
    (b : list (string * string)) (cookies : option (list (string * token)))
    (u : User.t) :
  signup_rules_pass b = true ->
  controller_email b <> EmptyString ->
  online (db w) = true ->
  find (Prisma.by_email (controller_email b)) (users (db w)) = Some u ->
  run w fresh (post_signup env (arriving b cookies)) =
    (w, responded 400 [ ("success", VBool false);
                        ("message", VStr "Email already registered") ],
     Ok tt).
Proof.
  intros Hpass Hfull Hon Hu.
  destruct (signup_controller_view env (arriving b cookies) eq_refl Hpass)
    as (-> & Hn & He & Hp & Hlen).
  cbn [arriving Req.body] in He.
  apply (signUp_rejects_registered_email env w _ u); auto.
  - rewrite He. cbn. now apply String.eqb_neq.
  - now rewrite He.
Qed.


End RouteChecks.

(* ------------------------------------------------------------------ *)
(** ** Letter case, end to end *)

Section EmailCase.
Context `{L : Libraries}.
Variable env : process_env.

Lemma signIn_wrong_password_run (w : World) (req : Req.t) (u : User.t) :
  falsy (field (Req.body req) "email") = false ->
  falsy (field (Req.body req) "password") = false ->
  online (db w) = true ->
  find (Prisma.by_email (text (field (Req.body req) "email")))
       (users (db w)) = Some u ->
  bcrypt_compare (text (field (Req.body req) "password"))
                 (User.password u) = false ->
  run w fresh (signIn env req) =
    (w, responded 401 [ ("success", VBool false);
                        ("message", VStr "Invalid email or password") ],
     Ok tt).
Proof.
  intros He Hp Hon Hu Hpw. unfold signIn. rewrite He, Hp.
  cbn -[falsy]. unfold Prisma.findUnique_email. rewrite Hon, Hu.
  cbn. rewrite Hpw. reflexivity.
Qed.

(** Replacing the email of a request by one equal up to letter case leaves
    what the chains hand on unchanged. *)
Lemma chains_ignore_email_case (req : Req.t) (e1 e2 : string) :
  lookup (Req.body req) "email" = Some e1 ->
  toLowerCase e2 = toLowerCase e1 ->
  fold_left Chain.apply validateSignUp (with_email req e2) =
    fold_left Chain.apply validateSignUp req /\
  fold_left Chain.apply validateSignIn (with_email req e2) =
    fold_left Chain.apply validateSignIn req.
Proof.
  intros He1 Hcase.
  destruct (chains_are_case_blind e2 e1 Hcase) as (Hempty & Hmail & Hnorm).
  assert (E2 : lookup (Req.body (with_email req e2)) "email" = Some e2)
    by apply lookup_assign_same.
  split.
  - rewrite !validateSignUp_applied.
    unfold controller_email, signup_failures. rewrite E2, He1. cbn [text].
    unfold with_email. cbn [Req.body Req.cookies Req.user Req.errors].
    rewrite !(lookup_assign_other _ "email" "name") by reflexivity.
    rewrite !(lookup_assign_other _ "email" "password") by reflexivity.
    rewrite (assign_through _ "email" "name" e1) by (reflexivity || exact He1).
    now rewrite Hempty, Hmail, Hnorm.
  - rewrite !validateSignIn_applied.
    unfold controller_email, signin_failures. rewrite E2, He1. cbn [text].
    unfold with_email. cbn [Req.body Req.cookies Req.user Req.errors].
    rewrite !(lookup_assign_other _ "email" "password") by reflexivity.
    rewrite assign_assign.
    now rewrite Hempty, Hmail, Hnorm.
Qed.

(** C9. Take a request whose email is [e1], and send [e2] in its place,
    equal to [e1] up to letter case. Both routes hand the controller the
    email of [e1], trimmed and normalized, and run the very handler they
    run for [e1]. So when the store holds a user under that normalized
    email, the request with [e2] finds this user: a sign-up that passes the
    rules is answered 400 [Email already registered]; a sign-in that passes
    the rules is checked against this user's hash, answered 401 when the
    password does not match and 200 with this user's public fields and a
    token for this user when it does. *)
Theorem email_case_is_normalized_away (w : World)
    (b : list (string * string)) (cookies : option (list (string * token)))
    (e1 e2 : string) (u : User.t) :
  lookup b "email" = Some e1 ->
  toLowerCase e2 = toLowerCase e1 ->
  (field (Req.body (fold_left Chain.apply validateSignUp
                      (with_email (arriving b cookies) e2))) "email" =
     Some (written (normalizeEmail (Validator.trim e1))) /\
   field (Req.body (fold_left Chain.apply validateSignIn
                      (with_email (arriving b cookies) e2))) "email" =
     Some (written (normalizeEmail (Validator.trim e1)))) /\
  (post_signup env (with_email (arriving b cookies) e2) =
     post_signup env (arriving b cookies) /\
   post_signin env (with_email (arriving b cookies) e2) =
     post_signin env (arriving b cookies)) /\
  (online (db w) = true ->
   written (normalizeEmail (Validator.trim e1)) <> EmptyString ->
   find (Prisma.by_email (written (normalizeEmail (Validator.trim e1))))
        (users (db w)) = Some u ->
   (signup_rules_pass b = true ->
    run w fresh (post_signup env (with_email (arriving b cookies) e2)) =
      (w, responded 400 [ ("success", VBool false);
                          ("message", VStr "Email already registered") ],
       Ok tt)) /\
   (signin_rules_pass b = true ->
    bcrypt_compare (text (lookup b "password")) (User.password u) = false ->
    run w fresh (post_signin env (with_email (arriving b cookies) e2)) =
      (w, responded 401 [ ("success", VBool false);
                          ("message", VStr "Invalid email or password") ],
       Ok tt)) /\
   (signin_rules_pass b = true ->
    bcrypt_compare (text (lookup b "password")) (User.password u) = true ->
    forall lifetime,
      token_lifetime env = Some lifetime ->
      run w fresh (post_signin env (with_email (arriving b cookies) e2)) =
        (w,
         {| set_cookies :=
              [("token", token_for env u (clock w) lifetime,
                cookie_contract (production env) 604800000)];
            sent :=
              [(200, [ ("success", VBool true);
                       ("message", VStr "Signed in successfully");
                       ("user", VObj (public u)) ])];
            console := []; forwarded := [] |},
         Ok tt))).
Proof.
  intros He1 Hcase.
  destruct (chains_ignore_email_case (arriving b cookies) e1 e2 He1 Hcase)
    as [Hup Hin].
  assert (Hce : controller_email b =
                written (normalizeEmail (Validator.trim e1)))
    by (unfold controller_email; now rewrite He1).
  assert (Hsame :
    post_signup env (with_email (arriving b cookies) e2) =
      post_signup env (arriving b cookies) /\
    post_signin env (with_email (arriving b cookies) e2) =
      post_signin env (arriving b cookies)).
  { unfold post_signup, post_signin, Chain.middleware.
    now rewrite Hup, Hin. }
  split; [|split; [exact Hsame|]].
  - rewrite Hup, Hin, validateSignUp_applied, validateSignIn_applied.
    unfold field. cbn [Req.body arriving].
    now rewrite !lookup_assign_same, Hce.
  - destruct Hsame as [-> ->]. rewrite <- Hce.
    intros Hon Hfull Hu. repeat apply conj.
    + intros Hpass.
      now apply (signup_route_duplicate_run env w b cookies u).
    + intros Hpass Hpw.
      destruct (signin_controller_view env (arriving b cookies) eq_refl Hpass)
        as (-> & He & Hp & Hpf).
      cbn [arriving Req.body] in He, Hp, Hpf.
      apply (signIn_wrong_password_run w _ u); rewrite ?He, ?Hp; auto.
      cbn. now apply String.eqb_neq.
    + intros Hpass Hpw lifetime Hlife.
      destruct (signin_controller_view env (arriving b cookies) eq_refl Hpass)
        as (-> & He & Hp & Hpf).
      cbn [arriving Req.body] in He, Hp, Hpf.
      apply (signIn_success_run env w _ u lifetime); rewrite ?He, ?Hp; auto.
      cbn. now apply String.eqb_neq.
Qed.

End EmailCase.

(* ------------------------------------------------------------------ *)
(** ** Sign-out and the cleared cookie *)

Section SignOut.
Context `{L : Libraries}.
Variable env : process_env.

(** X11. Sign-out answers 200 and overwrites the [token] cookie with the empty
    string, expiring at the epoch, under the flags of the session cookie;
    it never reads or writes the store. A request that sends this cookie
    back is treated as carrying no token: the middleware answers 401
    [Authentication required] without verifying anything or consulting the
    store. *)
Theorem signed_out_cookie_is_refused (w w' : World) (req : Req.t)
    (b : list (string * string)) (next : Req.t -> prog unit) :
  run w fresh (signOut env req) =
    (w,
     {| set_cookies :=
          [("token", Opaque EmptyString,
            [ ("httpOnly", VBool true);
              ("secure", VBool (production env));
              ("sameSite", VStr "strict");
              ("expires", VDate 0);
              ("path", VStr "/") ])];
        sent := [(200, [ ("success", VBool true);
                         ("message", VStr "Signed out successfully") ])];
        console := []; forwarded := [] |},
     Ok tt) /\
  run w' fresh
      (authenticate env
         (carrying b (jar (exchange (run w fresh (signOut env req)))))
         next) =
    (w', responded 401
           [ ("success", VBool false);
             ("message", VStr "Authentication required. Please sign in.") ],
     Ok tt) /\
  awaited w' fresh
      (authenticate env
         (carrying b (jar (exchange (run w fresh (signOut env req)))))
         next) = [].
Proof. repeat split. Qed.

(** X12. The sign-out route clears the cookie only for a caller the middleware
    lets through. Without a token, with a token that does not verify, or
    with a token whose user the store does not find, it answers 401 and
    sets no cookie; when the lookup is rejected it answers 500 and sets no
    cookie; otherwise it clears the cookie and answers 200. *)
Theorem signout_route_needs_a_session (w : World) (req : Req.t) :
  run w fresh (post_signout env req) =
    (if no_token (cookie_token req) then
       (w, responded 401
             [ ("success", VBool false);
               ("message", VStr "Authentication required. Please sign in.") ],
        Ok tt)
     else
       match Jwt.verify (the_token (cookie_token req)) (JWT_SECRET env)
                        (clock w) with
       | Thrown _ =>
           (w, responded 401
                 [ ("success", VBool false);
                   ("message",
                    VStr "Invalid or expired token. Please sign in again.") ],
            Ok tt)
       | Ok decoded =>
           match Prisma.findUnique_id (db w) (userId decoded) projection with
           | Ok None =>
               (w, responded 401
                     [ ("success", VBool false);
                       ("message",
                        VStr "User not found. Please sign in again.") ],
                Ok tt)
           | Ok (Some user) =>
               (w,
                {| set_cookies :=
                     [("token", Opaque EmptyString,
                       [ ("httpOnly", VBool true);
                         ("secure", VBool (production env));
                         ("sameSite", VStr "strict");
                         ("expires", VDate 0);
                         ("path", VStr "/") ])];
                   sent := [(200, [ ("success", VBool true);
                                    ("message",
                                     VStr "Signed out successfully") ])];
                   console := []; forwarded := [] |},
                Ok tt)
           | Thrown e =>
               (w, {| set_cookies := [];
                      sent := [(500,
                                [ ("success", VBool false);
                                  ("message",
                                   VStr "Internal server error during authentication") ])];
                      console := [("Authentication error:", e)];
                      forwarded := [] |}, Ok tt)
           end
       end).
Proof.
  unfold post_signout, authenticate.
  destruct (no_token (cookie_token req)); [reflexivity|].
  cbn -[Jwt.verify Prisma.findUnique_id]. unfold verifyToken, try_sync.
  destruct (Jwt.verify _ _ _) as [decoded|e]; [|reflexivity].
  cbn -[Prisma.findUnique_id].
  destruct (Prisma.findUnique_id _ _ _) as [[user|]|e]; reflexivity.
Qed.

End SignOut.

(* ------------------------------------------------------------------ *)
(** ** What a handler waits for *)

Section Waiting.
Context `{L : Libraries}.
Variable env : process_env.

(** X13. Sign-in compares passwords only for a stored email. It awaits nothing
    when a field is missing, the lookup alone when the store rejects it or
    holds no user with the email, and the lookup followed by
    [bcrypt.compare] when it holds one, whether or not the password then
    matches. Sign-up awaits nothing when the controller's check fails and
    the lookup alone when the email is stored or the lookup is rejected; it
    hashes the password and calls [create] only for an email the lookup did
    not find. *)
Theorem hashing_follows_the_lookup (w : World) (req : Req.t) :
  awaited w fresh (signIn env req) =
    (if falsy (field (Req.body req) "email") ||
        falsy (field (Req.body req) "password") then []
     else if negb (online (db w)) then ["prisma.user.findUnique"]
     else match find (Prisma.by_email (text (field (Req.body req) "email")))
                     (users (db w)) with
          | None => ["prisma.user.findUnique"]
          | Some _ => ["prisma.user.findUnique"; "bcrypt.compare"]
          end) /\
  awaited w fresh (signUp env req) =
    (if controller_rejects (Req.body req) then []
     else if negb (online (db w)) then ["prisma.user.findUnique"]
     else match find (Prisma.by_email (text (field (Req.body req) "email")))
                     (users (db w)) with
          | Some _ => ["prisma.user.findUnique"]
          | None => ["prisma.user.findUnique"; "bcrypt.hash";
                     "prisma.user.create"]
          end).
Proof.
  split.
  - unfold signIn.
    destruct (falsy (field (Req.body req) "email") ||
              falsy (field (Req.body req) "password")); [reflexivity|].
    cbn -[falsy Ms.parse]. unfold Prisma.findUnique_email.
    destruct (online (db w)); [|reflexivity].
    destruct (find _ _) as [u|]; [|reflexivity].
    cbn -[falsy Ms.parse].
    destruct (bcrypt_compare _ _); [|reflexivity].
    cbn -[falsy Ms.parse]. unfold generateToken, Jwt.sign.
    destruct (Ms.parse _); reflexivity.
  - unfold signUp, controller_rejects.
    destruct (falsy (field (Req.body req) "name") ||
              falsy (field (Req.body req) "email") ||
              falsy (field (Req.body req) "password")); [reflexivity|].
    cbn [orb].
    destruct (String.length (text (field (Req.body req) "password")) <? 6)%nat;
      [reflexivity|].
    cbn -[falsy Ms.parse]. unfold Prisma.findUnique_email.
    destruct (online (db w)) eqn:Hon; [|reflexivity].
    destruct (find _ _) as [u|]; [reflexivity|].
    cbn -[falsy Ms.parse]. unfold Prisma.create. rewrite Hon.
    destruct (existsb _ _ || existsb _ _); [reflexivity|].
    cbn -[falsy Ms.parse]. unfold generateToken, Jwt.sign.
    destruct (Ms.parse _); reflexivity.
Qed.

End Waiting.

(* ------------------------------------------------------------------ *)
(** ** server.js *)

Section ServerResponses.
Context `{L : Libraries}.
Variable env : process_env.

(** X16. The handlers of the application itself keep the response shape of the
    auth routes: the health check answers 200 with [success] true, the
    catch-all 404 and the error handler 500 with [success] false. The error
    handler logs the error and puts its message in the body exactly when
    [NODE_ENV] is [development]; otherwise the body has [success] and
    [message] only. *)
Theorem server_handlers_respond_in_shape (w : World) (req : Req.t)
    (err : error) :
  Forall flagged (sent (exchange (run w fresh (health req)))) /\
  map fst (sent (exchange (run w fresh (health req)))) = [200] /\
  Forall flagged (sent (exchange (run w fresh (notFound req)))) /\
  map fst (sent (exchange (run w fresh (notFound req)))) = [404] /\
  Forall flagged (sent (exchange (run w fresh (errorHandler env err req)))) /\
  map fst (sent (exchange (run w fresh (errorHandler env err req)))) = [500] /\
  map (fun r => keys (snd r))
      (sent (exchange (run w fresh (errorHandler env err req)))) =
    [if match NODE_ENV env with
        | Some v => String.eqb v "development"
        | None => false
        end
     then ["success"; "message"; "error"] else ["success"; "message"]] /\
  map (fun r => get (snd r) "error")
      (sent (exchange (run w fresh (errorHandler env err req)))) =
    [if development env then VStr (err_message err) else VUndefined] /\
  console (exchange (run w fresh (errorHandler env err req))) =
    [("Error:", err)].
Proof.
  unfold errorHandler, development.
  destruct (match NODE_ENV env with Some v => String.eqb v "development"
                               | None => false end);
    cbn; repeat split; repeat constructor.
Qed.

End ServerResponses.

(* ------------------------------------------------------------------ *)
(** ** Sign-ups in flight together *)

Section Racing.
Context `{L : Libraries}.
Variable env : process_env.

(** Walk a handler's tree, splitting on every answer. *)
Ltac tree :=
  repeat (cbn -[falsy Ms.parse generateToken];
          match goal with
          | |- _ /\ _ => split
          | |- forall _ : result _, _ => intros [?|?]
          | |- True => exact I
          | |- _ = _ => reflexivity
          | |- context [lift ?x] => destruct x
          | |- context [match ?x with Some _ => _ | None => _ end] =>
              destruct x
          | |- context [if ?c then _ else _] => destruct c
          end).

Lemma signUp_guarded (req : Req.t) :
  guarded (text (field (Req.body req) "email")) (signUp env req).
Proof. unfold signUp. tree. Qed.

Lemma post_signup_guarded (req : Req.t) :
  guarded (controller_email (Req.body req)) (post_signup env req).
Proof.
  unfold post_signup, Chain.middleware, checkValidation.
  destruct (negb _); [tree|].
  pose proof (signUp_guarded (fold_left Chain.apply validateSignUp req)) as H.
  rewrite validateSignUp_applied in H at 1.
  unfold field in H. cbn [Req.body] in H.
  rewrite lookup_assign_same in H. exact H.
Qed.


Section OneInsert.
Variable e : string.

Lemma quiet_once (p : prog unit) : quiet p -> once p.
Proof.
  induction p as [a|err|X ev k IH]; cbn; auto.
  intros (H2 & Hc & Hk). split; [exact Hc|].
  intros r. rewrite H2. auto.
Qed.

Lemma quiet_guarded (p : prog unit) : quiet p -> guarded e p.
Proof.
  induction p as [a|err|X ev k IH]; cbn; auto.
  intros (H2 & Hc & Hk). split; [exact H2|].
  rewrite Hc. auto.
Qed.

Lemma successes_app (x : Exchange) (st : Z) (b : obj) :
  successes {| set_cookies := set_cookies x; sent := sent x ++ [(st, b)];
               console := console x; forwarded := forwarded x |} =
    (successes x ++ if is_2xx st then [(st, b)] else [])%list.
Proof.
  unfold successes. cbn [sent]. rewrite filter_app. cbn.
  now destruct (is_2xx st).
Qed.

Lemma perform_successes {X} (ev : effect X) (w : World) (x : Exchange) :
  successes (snd (fst (perform w x ev))) =
    (successes x ++
     match ev with
     | ResStatusJson st b => if is_2xx st then [(st, b)] else []
     | _ => []
     end)%list.
Proof.
  destruct ev; cbn; rewrite ?app_nil_r; try reflexivity.
  - unfold Prisma.create.
    destruct (online (db w)); [|cbn; reflexivity].
    destruct (_ || _); reflexivity.
  - apply successes_app.
Qed.

Lemma perform_taken {X} (ev : effect X) (w : World) (x : Exchange) :
  taken e w = true -> taken e (fst (fst (perform w x ev))) = true.
Proof.
  intros H. destruct ev; try exact H.
  cbn. unfold Prisma.create.
  destruct (online (db w)); [|exact H].
  destruct (_ || _); [exact H|].
  unfold taken in *. cbn. rewrite existsb_app, H. reflexivity.
Qed.

Lemma perform_create {X} (ev : effect X) (w : World) (x : Exchange) :
  creates ev = Some e ->
  accepted (snd (perform w x ev)) = true ->
  taken e w = false /\ taken e (fst (fst (perform w x ev))) = true.
Proof.
  destruct ev; try discriminate.
  cbn [creates]. intros [= ->]. cbn. unfold Prisma.create, taken.
  destruct (online (db w)); [|discriminate].
  destruct (existsb (Prisma.by_email e) (users (db w))) eqn:E;
    [discriminate|].
  cbn [orb].
  destruct (existsb (Prisma.by_id _) (users (db w))); [discriminate|].
  intros _. split; [reflexivity|].
  cbn. rewrite existsb_app. cbn. unfold Prisma.by_email. cbn.
  rewrite String.eqb_refl. cbn. apply orb_true_r.
Qed.

Lemma perform_quiet_world {X} (ev : effect X) (w : World) (x : Exchange) :
  suspends ev = false -> fst (fst (perform w x ev)) = w.
Proof. destruct ev; try discriminate; reflexivity. Qed.

Lemma step_not_inserted {X} (ev : effect X) (k : result X -> prog unit)
    (w : World) (x : Exchange) :
  not_inserted e (x, Vis ev k) ->
  not_inserted e (snd (fst (perform w x ev)), k (snd (perform w x ev))) \/
  (taken e w = false /\
   inserted e (fst (fst (perform w x ev)))
            (snd (fst (perform w x ev)), k (snd (perform w x ev)))).
Proof.
  unfold not_inserted, inserted. cbn [fst snd guarded].
  intros (Hs & H2 & Hk).
  assert (Hs' : successes (snd (fst (perform w x ev))) = []).
  { rewrite perform_successes, Hs.
    destruct ev; try reflexivity. cbn in H2. now rewrite H2. }
  destruct (creates ev) as [e'|] eqn:Ec.
  - destruct Hk as (-> & Hk). specialize (Hk (snd (perform w x ev))).
    destruct (accepted (snd (perform w x ev))) eqn:Ea.
    + right. destruct (perform_create ev w x Ec Ea) as [H0 H1]. auto.
    + left. auto.
  - left. auto.
Qed.

Lemma step_inserted {X} (ev : effect X) (k : result X -> prog unit)
    (w : World) (x : Exchange) :
  inserted e w (x, Vis ev k) ->
  inserted e (fst (fst (perform w x ev)))
           (snd (fst (perform w x ev)), k (snd (perform w x ev))).
Proof.
  unfold inserted. cbn [fst snd].
  intros (Ht & H). split; [now apply perform_taken|].
  rewrite perform_successes.
  destruct H as [(Hs & Hc & Hk)|(Hs & H2 & Hc & Hk)].
  - specialize (Hk (snd (perform w x ev))). rewrite Hs.
    destruct (answers_2xx ev) eqn:E2.
    + right. split; [|exact Hk].
      destruct ev; try discriminate. cbn in E2. rewrite E2. cbn. lia.
    + left. split; [|exact Hk].
      destruct ev; try reflexivity. cbn in E2. now rewrite E2.
  - right. split; [|apply Hk].
    destruct ev; rewrite ?app_nil_r; try exact Hs.
    cbn in H2. rewrite H2, app_nil_r. exact Hs.
Qed.

Lemma settle_world (p : prog unit) (w : World) (x : Exchange) :
  fst (fst (settle w x p)) = w.
Proof.
  revert w x. induction p as [a|err|X ev k IH]; intros w x; try reflexivity.
  cbn. destruct (suspends ev) eqn:Es; [reflexivity|].
  pose proof (perform_quiet_world ev w x Es) as Hw.
  destruct (perform w x ev) as [[w' x'] r]. cbn in Hw. subst w'.
  apply IH.
Qed.

Lemma step_without_insert {X} (ev : effect X) (k : result X -> prog unit)
    (w : World) (x : Exchange) :
  creates ev = None ->
  not_inserted e (x, Vis ev k) ->
  not_inserted e (snd (fst (perform w x ev)), k (snd (perform w x ev))).
Proof.
  intros Hc H.
  destruct (step_not_inserted ev k w x H) as [H'|[_ H']]; [exact H'|].
  unfold not_inserted in *. cbn [fst snd guarded] in *.
  destruct H as (Hs & H2 & Hk). rewrite Hc in Hk.
  split; [|apply Hk].
  rewrite perform_successes, Hs.
  destruct ev; try reflexivity. cbn in H2. now rewrite H2.
Qed.

Lemma settle_not_inserted (p : prog unit) (w : World) (x : Exchange) :
  not_inserted e (x, p) ->
  not_inserted e (snd (fst (settle w x p)), snd (settle w x p)).
Proof.
  revert w x. induction p as [a|err|X ev k IH]; intros w x H; try exact H.
  cbn. destruct (suspends ev) eqn:Es; [exact H|].
  assert (Hc : creates ev = None) by (destruct ev; try discriminate; reflexivity).
  pose proof (step_without_insert ev k w x Hc H) as H'.
  destruct (perform w x ev) as [[w' x'] r]. now apply IH.
Qed.

Lemma settle_inserted (p : prog unit) (w : World) (x : Exchange) :
  inserted e w (x, p) ->
  inserted e w (snd (fst (settle w x p)), snd (settle w x p)).
Proof.
  revert w x. induction p as [a|err|X ev k IH]; intros w x H; try exact H.
  cbn. destruct (suspends ev) eqn:Es; [exact H|].
  pose proof (perform_quiet_world ev w x Es) as Hw.
  pose proof (step_inserted ev k w x H) as H'.
  destruct (perform w x ev) as [[w' x'] r]. cbn in Hw. subst w'.
  now apply IH.
Qed.

Lemma turn_taken (p : prog unit) (w : World) (x : Exchange) :
  taken e w = true -> taken e (fst (fst (turn w x p))) = true.
Proof.
  intros H. destruct p as [a|err|X ev k]; try exact H.
  cbn. pose proof (perform_taken ev w x H) as H'.
  destruct (perform w x ev) as [[w' x'] r].
  now rewrite settle_world.
Qed.

Lemma turn_not_inserted (p : prog unit) (w : World) (x : Exchange) :
  not_inserted e (x, p) ->
  not_inserted e (snd (fst (turn w x p)), snd (turn w x p)) \/
  (taken e w = false /\
   inserted e (fst (fst (turn w x p)))
            (snd (fst (turn w x p)), snd (turn w x p))).
Proof.
  intros H. destruct p as [a|err|X ev k]; try (left; exact H).
  cbn. destruct (step_not_inserted ev k w x H) as [H'|[H0 H']];
    destruct (perform w x ev) as [[w' x'] r]; cbn [fst snd] in H'.
  - left. now apply settle_not_inserted.
  - right. split; [exact H0|]. rewrite settle_world.
    now apply settle_inserted.
Qed.

Lemma turn_inserted (p : prog unit) (w : World) (x : Exchange) :
  inserted e w (x, p) ->
  inserted e (fst (fst (turn w x p)))
           (snd (fst (turn w x p)), snd (turn w x p)).
Proof.
  intros H. destruct p as [a|err|X ev k]; try exact H.
  cbn. pose proof (step_inserted ev k w x H) as H'.
  destruct (perform w x ev) as [[w' x'] r]. cbn [fst snd] in H'.
  rewrite settle_world. now apply settle_inserted.
Qed.

Lemma inserted_later (w w' : World) (s : Exchange * prog unit) :
  (taken e w = true -> taken e w' = true) ->
  inserted e w s -> inserted e w' s.
Proof. intros Hm (Ht & H). split; auto. Qed.

Lemma interleave_one_insert (schedule : list bool) (w : World)
    (a b : Exchange * prog unit) :
  one_insert e w a b ->
  one_insert e (fst (fst (interleave schedule w a b)))
             (snd (fst (interleave schedule w a b)))
             (snd (interleave schedule w a b)).
Proof.
  revert w a b.
  induction schedule as [|first rest IH]; intros w [xa pa] [xb pb] H;
    [exact H|].
  destruct first; cbn [interleave fst snd].
  - pose proof (turn_taken pa w xa) as Hm.
    pose proof (turn_not_inserted pa w xa) as HN.
    pose proof (turn_inserted pa w xa) as HI.
    destruct (turn w xa pa) as [[w' x'] p']. cbn [fst snd] in *.
    apply IH. destruct H as [[Ha Hb]|[[Ha Hb]|[Ha Hb]]].
    + destruct (HN Ha) as [Ha'|[_ Ha']].
      * left; auto.
      * right; left; auto.
    + right; left; auto.
    + destruct (HN Ha) as [Ha'|[H0 _]].
      * right; right. split; [exact Ha'|]. now apply (inserted_later w).
      * destruct Hb as [Ht _]. congruence.
  - pose proof (turn_taken pb w xb) as Hm.
    pose proof (turn_not_inserted pb w xb) as HN.
    pose proof (turn_inserted pb w xb) as HI.
    destruct (turn w xb pb) as [[w' x'] p']. cbn [fst snd] in *.
    apply IH. destruct H as [[Ha Hb]|[[Ha Hb]|[Ha Hb]]].
    + destruct (HN Hb) as [Hb'|[_ Hb']].
      * left; auto.
      * right; right; auto.
    + destruct (HN Hb) as [Hb'|[H0 _]].
      * right; left. split; [|exact Hb']. now apply (inserted_later w).
      * destruct Ha as [Ht _]. congruence.
    + right; right; auto.
Qed.


Lemma one_insert_one_2xx (w : World) (a b : Exchange * prog unit) :
  one_insert e w a b ->
  (answered_2xx (w, a, b) <= 1)%nat /\
  (answered_2xx (w, a, b) = 1%nat -> taken e w = true).
Proof.
  unfold answered_2xx. cbn [fst snd].
  intros [[[Ha _] [Hb _]]|[[[Ht Ha] [Hb _]]|[[Ha _] [Ht Hb]]]].
  - rewrite Ha, Hb. cbn. split; [lia|discriminate].
  - rewrite Hb. split; [|auto].
    destruct Ha as [[-> _]|[Hl _]]; cbn; lia.
  - rewrite Ha. split; [|auto].
    destruct Hb as [[-> _]|[Hl _]]; cbn; lia.
Qed.

End OneInsert.

(** X14. Two sign-ups for one email in flight together, whatever the store
    holds and however the two handlers are interleaved at their awaits:
    at most one of them is answered 2xx, and when one is, the store holds
    a user with that email. This holds for the controller, when the two
    bodies carry the same email, and for the route, when the two emails are
    the same once trimmed and normalized. *)
Theorem racing_signups_are_never_both_created (schedule : list bool)
    (w : World) (ra rb : Req.t) :
  (text (field (Req.body rb) "email") = text (field (Req.body ra) "email") ->
   (answered_2xx (interleave schedule w (fresh, signUp env ra)
                                        (fresh, signUp env rb)) <= 1)%nat /\
   (answered_2xx (interleave schedule w (fresh, signUp env ra)
                                        (fresh, signUp env rb)) = 1%nat ->
    taken (text (field (Req.body ra) "email"))
          (fst (fst (interleave schedule w (fresh, signUp env ra)
                                           (fresh, signUp env rb)))) = true)) /\
  (controller_email (Req.body rb) = controller_email (Req.body ra) ->
   (answered_2xx (interleave schedule w (fresh, post_signup env ra)
                                        (fresh, post_signup env rb)) <= 1)%nat /\
   (answered_2xx (interleave schedule w (fresh, post_signup env ra)
                                        (fresh, post_signup env rb)) = 1%nat ->
    taken (controller_email (Req.body ra))
          (fst (fst (interleave schedule w (fresh, post_signup env ra)
                                           (fresh, post_signup env rb))))
      = true)).
Proof.
  split; intros Hsame.
  - pose proof (interleave_one_insert (text (field (Req.body ra) "email"))
                  schedule w (fresh, signUp env ra) (fresh, signUp env rb))
      as H.
    destruct (interleave schedule w _ _) as [[w' a] b]. cbn [fst snd] in *.
    apply one_insert_one_2xx, H. left.
    split; (split; [reflexivity|]); cbn [snd].
    + apply signUp_guarded.
    + rewrite <- Hsame. apply signUp_guarded.
  - pose proof (interleave_one_insert (controller_email (Req.body ra))
                  schedule w (fresh, post_signup env ra)
                  (fresh, post_signup env rb)) as H.
    destruct (interleave schedule w _ _) as [[w' a] b]. cbn [fst snd] in *.
    apply one_insert_one_2xx, H. left.
    split; (split; [reflexivity|]); cbn [snd].
    + apply post_signup_guarded.
    + rewrite <- Hsame. apply post_signup_guarded.
Qed.

(** X15. The race in general. Two sign-ups that pass the controller's check
    for one email that is not stored, each completing its pre-check and its
    hashing before either inserts: the first is answered 201 with its
    cookie, its user is the only one added, and the second has its insert
    rejected and is answered 500 without a cookie. *)
Theorem racing_signups_second_gets_500 (w : World) (ra rb : Req.t)
    (lifetime : Z) :
  controller_rejects (Req.body ra) = false ->
  controller_rejects (Req.body rb) = false ->
  text (field (Req.body rb) "email") = text (field (Req.body ra) "email") ->
  online (db w) = true ->
  find (Prisma.by_email (text (field (Req.body ra) "email")))
       (users (db w)) = None ->
  existsb (Prisma.by_id (cuid (seq (db w)))) (users (db w)) = false ->
  token_lifetime env = Some lifetime ->
  interleave [true; false; true; false; true; false] w
             (fresh, signUp env ra) (fresh, signUp env rb) =
    (with_new_user w (new_user w ra),
     ({| set_cookies :=
           [("token", token_for env (new_user w ra) (clock w) lifetime,
             cookie_contract (production env) 604800000)];
         sent :=
           [(201, [ ("success", VBool true);
                    ("message", VStr "User created successfully");
                    ("user", VObj (public (new_user w ra))) ])];
         console := []; forwarded := [] |},
      Ret tt),
     ({| set_cookies := [];
         sent := [(500, [ ("success", VBool false);
                          ("message", VStr "Internal server error") ])];
         console := [("Sign up error:", Prisma.UniqueConstraintError)];
         forwarded := [] |},
      Ret tt)).
Proof.
  intros Ha Hb Hsame Hon Hfree Hid Hlife.
  unfold controller_rejects in Ha, Hb.
  apply orb_false_elim in Ha. destruct Ha as [Ha Hla].
  apply orb_false_elim in Hb. destruct Hb as [Hb Hlb].
  unfold token_lifetime in Hlife.
  destruct (Ms.parse (JWT_EXPIRES_IN env)) as [ms|] eqn:Ems; [|discriminate].
  injection Hlife as <-.
  assert (Htaken :
    existsb (Prisma.by_email (text (field (Req.body ra) "email")))
            (users (db w) ++ [new_user w ra]) = true).
  { rewrite existsb_app. apply orb_true_iff. right.
    cbn. unfold Prisma.by_email. cbn. now rewrite String.eqb_refl. }
  unfold new_user in Htaken.
  unfold signUp. rewrite Ha, Hla, Hb, Hlb, Hsame.
  repeat progress
    (cbn -[falsy Ms.parse existsb];
     unfold Prisma.findUnique_email, Prisma.create, generateToken, Jwt.sign;
     rewrite ?Hon, ?Hfree, ?(find_none_existsb _ _ Hfree), ?Ems;
     cbn [User.id orb users db];
     rewrite ?Hid, ?Htaken).
  unfold with_new_user, new_user, token_for, public. rewrite Hon.
  reflexivity.
Qed.

End Racing.

(* ------------------------------------------------------------------ *)
(** ** One request, one response *)

Section OneResponse.
Context `{L : Libraries}.
Variable env : process_env.

(** X6. Every controller and every route of the auth subsystem answers each
    request exactly once, whatever the request and the store, the failure
    paths included; and it writes to the console exactly when it answers
    500. *)
Theorem exactly_one_response (w : World) (req : Req.t) :
  (List.length (sent (exchange (run w fresh (signUp env req)))) = 1 /\
   List.length (console (exchange (run w fresh (signUp env req)))) =
     List.length (failures_500 (exchange (run w fresh (signUp env req)))))%nat /\
  (List.length (sent (exchange (run w fresh (signIn env req)))) = 1 /\
   List.length (console (exchange (run w fresh (signIn env req)))) =
     List.length (failures_500 (exchange (run w fresh (signIn env req)))))%nat /\
  (List.length (sent (exchange (run w fresh (signOut env req)))) = 1 /\
   List.length (console (exchange (run w fresh (signOut env req)))) =
     List.length (failures_500 (exchange (run w fresh (signOut env req)))))%nat /\
  (List.length (sent (exchange (run w fresh (post_signup env req)))) = 1 /\
   List.length (console (exchange (run w fresh (post_signup env req)))) =
     List.length
       (failures_500 (exchange (run w fresh (post_signup env req)))))%nat /\
  (List.length (sent (exchange (run w fresh (post_signin env req)))) = 1 /\
   List.length (console (exchange (run w fresh (post_signin env req)))) =
     List.length
       (failures_500 (exchange (run w fresh (post_signin env req)))))%nat /\
  (List.length (sent (exchange (run w fresh (post_signout env req)))) = 1 /\
   List.length (console (exchange (run w fresh (post_signout env req)))) =
     List.length
       (failures_500 (exchange (run w fresh (post_signout env req)))))%nat.
Proof.
  unfold exchange, failures_500. repeat apply conj.
  1-2: unfold signUp; exec; reflexivity.
  1-2: unfold signIn; exec; reflexivity.
  1-2: unfold signOut; exec; reflexivity.
  1-2: unfold post_signup, Chain.middleware;
       generalize (fold_left Chain.apply validateSignUp req); intros r;
       unfold checkValidation, signUp; exec; reflexivity.
  1-2: unfold post_signin, Chain.middleware;
       generalize (fold_left Chain.apply validateSignIn req); intros r;
       unfold checkValidation, signIn; exec; reflexivity.
  1-2: unfold post_signout, authenticate, signOut; exec; reflexivity.
Qed.

(** As [exec], with the status tests computed. *)
Ltac exec_status :=
  repeat (cbn -[Nat.ltb falsy Z.mul Z.add Z.div Ms.parse fold_left];
          unfold Prisma.findUnique_email, Prisma.create,
                 generateToken, Jwt.sign;
          try branch).

(** X7. A token cookie goes out with a success and with nothing else, and it
    speaks for the user in the response. For sign-up and sign-in, as
    controllers and as routes: the cookies set are as many as the 2xx
    responses (none on any failure), and the [userId] in the token of the
    cookie is the [id] of the [user] in the response body. *)
Theorem cookie_speaks_for_the_user_in_the_response (w : World) (req : Req.t) :
  map (fun c => token_subject (snd (fst c)))
      (set_cookies (exchange (run w fresh (signUp env req)))) =
    map response_user_id (successes (exchange (run w fresh (signUp env req)))) /\
  map (fun c => token_subject (snd (fst c)))
      (set_cookies (exchange (run w fresh (signIn env req)))) =
    map response_user_id (successes (exchange (run w fresh (signIn env req)))) /\
  map (fun c => token_subject (snd (fst c)))
      (set_cookies (exchange (run w fresh (post_signup env req)))) =
    map response_user_id
        (successes (exchange (run w fresh (post_signup env req)))) /\
  map (fun c => token_subject (snd (fst c)))
      (set_cookies (exchange (run w fresh (post_signin env req)))) =
    map response_user_id
        (successes (exchange (run w fresh (post_signin env req)))).
Proof.
  unfold exchange, successes. repeat apply conj.
  - unfold signUp; exec_status; reflexivity.
  - unfold signIn; exec_status; reflexivity.
  - unfold post_signup, Chain.middleware;
      generalize (fold_left Chain.apply validateSignUp req); intros r;
      unfold checkValidation, signUp; exec_status; reflexivity.
  - unfold post_signin, Chain.middleware;
      generalize (fold_left Chain.apply validateSignIn req); intros r;
      unfold checkValidation, signIn; exec_status; reflexivity.
Qed.

End OneResponse.

(* ------------------------------------------------------------------ *)
(** ** The further properties at concrete instances *)


Lemma double_compare_accepts_own_hash (p : string) :
  bcrypt_compare (Libraries := Double.libs) p
    (bcrypt_hash (Libraries := Double.libs) p 10) = true.
Proof. cbn. apply String.eqb_refl. Qed.

(** Ann signs up on the empty store and signs in again. *)
Lemma signin_after_signup_witness :
  map fst
    (sent (exchange
       (run (L := Double.libs)
          (world_of
             (run (L := Double.libs) Double.empty_world fresh
                (signUp (L := Double.libs) Double.dev
                   (Double.post [("name", "Ann"); ("email", "a@x.com");
                                 ("password", "secret1")]))))
          fresh
          (signIn (L := Double.libs) Double.dev
             (Double.post [("name", "Ann"); ("email", "a@x.com");
                           ("password", "secret1")])))))
    = [200].
Proof.
  rewrite (proj1 (proj2
             (signin_after_signup (L := Double.libs) Double.dev
                Double.empty_world
                (Double.post [("name", "Ann"); ("email", "a@x.com");
                              ("password", "secret1")])
                604800 double_compare_accepts_own_hash
                eq_refl eq_refl eq_refl eq_refl eq_refl))).
  reflexivity.
Defined.

(** Ann signs in at second 2000; her cookie is presented at second 5000,
    well within the seven days. *)
Lemma signin_cookie_opens_the_gate_witness :
  map Req.user
    (forwarded (exchange
       (run (L := Double.libs) (at_second Double.world_with_ann 5000) fresh
          (authenticate (L := Double.libs) Double.dev
             (carrying []
                (jar (exchange
                   (run (L := Double.libs) Double.world_with_ann fresh
                      (signIn (L := Double.libs) Double.dev
                         (Double.post [("email", "a@x.com");
                                       ("password", "secret1")]))))))
             forward))))
    = [Some (public Double.ann)].
Proof.
  rewrite (signin_cookie_opens_the_gate (L := Double.libs) Double.dev
             Double.world_with_ann
             (Double.post [("email", "a@x.com"); ("password", "secret1")])
             Double.ann 604800 5000 []
             eq_refl eq_refl eq_refl eq_refl eq_refl eq_refl eq_refl).
  reflexivity.
Defined.

(** [JWT_EXPIRES_IN=soon]: Ann's sign-up is answered 500, and Ann is
    stored. *)
Lemma unparsable_lifetime_answers_500_witness :
  map User.email
      (users (db (world_of
         (run (L := Double.libs) Double.empty_world fresh
            (signUp (L := Double.libs)
               {| NODE_ENV := None; env_JWT_SECRET := None;
                  env_JWT_EXPIRES_IN := Some "soon" |}
               (Double.post [("name", "Ann"); ("email", "a@x.com");
                             ("password", "secret1")]))))))
    = ["a@x.com"].
Proof.
  rewrite (proj1 (proj2
             (unparsable_lifetime_answers_500 (L := Double.libs)
                {| NODE_ENV := None; env_JWT_SECRET := None;
                   env_JWT_EXPIRES_IN := Some "soon" |}
                Double.empty_world eq_refl eq_refl)
             (Double.post [("name", "Ann"); ("email", "a@x.com");
                           ("password", "secret1")])
             eq_refl eq_refl eq_refl)).
  reflexivity.
Defined.


(** A name sent with blanks around it arrives trimmed. *)
Lemma validation_leaves_password_verbatim_witness :
  field (Req.body
           (fold_left Chain.apply (validateSignUp (L := Double.libs))
              (Double.post [("name", " Ann "); ("email", "a@x.com");
                            ("password", " secret1 ")]))) "name"
    = Some "Ann".
Proof.
  apply (proj1 (proj2 (proj2
           (validation_leaves_password_verbatim (L := Double.libs)
              (Double.post [("name", " Ann "); ("email", "a@x.com");
                            ("password", " secret1 ")]))))
           " Ann " eq_refl).
Defined.


(** C9, at a concrete instance: John is stored as [john@example.com]; a
    sign-in and a sign-up arrive for [ John@EXAMPLE.COM ], blanks
    included. *)
Lemma email_case_is_normalized_away_witness :
  run (L := Double.libs)
      {| db := {| users := [ {| User.id := "u0"; User.name := "John";
                                User.email := "john@example.com";
                                User.password := "$2a$10$secret1";
                                User.createdAt := 1000 |} ];
                  online := true; seq := 1 |};
         clock := 2000 |}
      fresh
      (post_signin (L := Double.libs) Double.dev
         (arriving [("name", "John"); ("email", " John@EXAMPLE.COM ");
                    ("password", "secret1")] None)) =
    ({| db := {| users := [ {| User.id := "u0"; User.name := "John";
                               User.email := "john@example.com";
                               User.password := "$2a$10$secret1";
                               User.createdAt := 1000 |} ];
                 online := true; seq := 1 |};
        clock := 2000 |},
     {| set_cookies :=
          [("token",
            Jws {| userId := VStr "u0"; iat := 2000; exp := 2000 + 604800 |}
                "your-super-secret-key-change-this-in-production.u0",
            cookie_contract false 604800000)];
        sent :=
          [(200, [ ("success", VBool true);
                   ("message", VStr "Signed in successfully");
                   ("user",
                    VObj [ ("id", VStr "u0"); ("name", VStr "John");
                           ("email", VStr "john@example.com");
                           ("createdAt", VDate 1000) ]) ])];
        console := []; forwarded := [] |},
     Ok tt) /\
  run (L := Double.libs)
      {| db := {| users := [ {| User.id := "u0"; User.name := "John";
                                User.email := "john@example.com";
                                User.password := "$2a$10$secret1";
                                User.createdAt := 1000 |} ];
                  online := true; seq := 1 |};
         clock := 2000 |}
      fresh
      (post_signup (L := Double.libs) Double.dev
         (arriving [("name", "John"); ("email", " John@EXAMPLE.COM ");
                    ("password", "secret1")] None)) =
    ({| db := {| users := [ {| User.id := "u0"; User.name := "John";
                               User.email := "john@example.com";
                               User.password := "$2a$10$secret1";
                               User.createdAt := 1000 |} ];
                 online := true; seq := 1 |};
        clock := 2000 |},
     responded 400 [ ("success", VBool false);
                     ("message", VStr "Email already registered") ],
     Ok tt).
Proof.
  pose proof
    (proj2 (proj2
       (email_case_is_normalized_away (L := Double.libs) Double.dev
          {| db := {| users := [ {| User.id := "u0"; User.name := "John";
                                    User.email := "john@example.com";
                                    User.password := "$2a$10$secret1";
                                    User.createdAt := 1000 |} ];
                      online := true; seq := 1 |};
             clock := 2000 |}
          [("name", "John"); ("email", " john@example.com ");
           ("password", "secret1")]
          None " john@example.com " " John@EXAMPLE.COM "
          {| User.id := "u0"; User.name := "John";
             User.email := "john@example.com";
             User.password := "$2a$10$secret1"; User.createdAt := 1000 |}
          eq_refl eq_refl))
       eq_refl) as H.
  assert (Hfull : written (normalizeEmail (L := Double.libs)
                             (Validator.trim " john@example.com "))
                  <> EmptyString) by discriminate.
  destruct (H Hfull eq_refl) as (Hup & _ & Hin).
  split.
  - exact (Hin eq_refl eq_refl 604800 eq_refl).
  - exact (Hup eq_refl).
Defined.

(** Two sign-ups for one address on the empty store, written in different
    letter case, one turn each in alternation: one 201 in all, and the
    address is stored. *)
Lemma racing_signups_are_never_both_created_witness :
  answered_2xx
    (interleave (L := Double.libs)
       [true; false; true; false; true; false] Double.empty_world
       (fresh, post_signup (L := Double.libs) Double.dev
                 (Double.post [("name", "Ann"); ("email", "a@x.com");
                               ("password", "secret1")]))
       (fresh, post_signup (L := Double.libs) Double.dev
                 (Double.post [("name", "Bob"); ("email", " A@X.COM");
                               ("password", "hunter22")]))) = 1%nat /\
  taken "a@x.com"
    (fst (fst
       (interleave (L := Double.libs)
          [true; false; true; false; true; false] Double.empty_world
          (fresh, post_signup (L := Double.libs) Double.dev
                    (Double.post [("name", "Ann"); ("email", "a@x.com");
                                  ("password", "secret1")]))
          (fresh, post_signup (L := Double.libs) Double.dev
                    (Double.post [("name", "Bob"); ("email", " A@X.COM");
                                  ("password", "hunter22")]))))) = true.
Proof.
  split; [reflexivity|].
  apply (proj2 (racing_signups_are_never_both_created (L := Double.libs)
                  Double.dev [true; false; true; false; true; false]
                  Double.empty_world
                  (Double.post [("name", "Ann"); ("email", "a@x.com");
                                ("password", "secret1")])
                  (Double.post [("name", "Bob"); ("email", " A@X.COM");
                                ("password", "hunter22")]))
          eq_refl).
  reflexivity.
Defined.

(** Ann and Bob race for one address on the empty store. *)
Lemma racing_signups_second_gets_500_witness :
  interleave (L := Double.libs) [true; false; true; false; true; false]
    Double.empty_world
    (fresh, signUp (L := Double.libs) Double.dev
              (Double.post [("name", "Ann"); ("email", "a@x.com");
                            ("password", "secret1")]))
    (fresh, signUp (L := Double.libs) Double.dev
              (Double.post [("name", "Bob"); ("email", "a@x.com");
                            ("password", "hunter22")])) =
    (with_new_user Double.empty_world
       (new_user (L := Double.libs) Double.empty_world
          (Double.post [("name", "Ann"); ("email", "a@x.com");
                        ("password", "secret1")])),
     ({| set_cookies :=
           [("token",
             token_for (L := Double.libs) Double.dev
               (new_user (L := Double.libs) Double.empty_world
                  (Double.post [("name", "Ann"); ("email", "a@x.com");
                                ("password", "secret1")]))
               1000 604800,
             cookie_contract false 604800000)];
         sent :=
           [(201, [ ("success", VBool true);
                    ("message", VStr "User created successfully");
                    ("user",
                     VObj (public
                       (new_user (L := Double.libs) Double.empty_world
                          (Double.post [("name", "Ann"); ("email", "a@x.com");
                                        ("password", "secret1")])))) ])];
         console := []; forwarded := [] |},
      Ret tt),
     ({| set_cookies := [];
         sent := [(500, [ ("success", VBool false);
                          ("message", VStr "Internal server error") ])];
         console := [("Sign up error:", Prisma.UniqueConstraintError)];
         forwarded := [] |},
      Ret tt)).
Proof.
  apply (racing_signups_second_gets_500 (L := Double.libs) Double.dev
           Double.empty_world
           (Double.post [("name", "Ann"); ("email", "a@x.com");
                         ("password", "secret1")])
           (Double.post [("name", "Bob"); ("email", "a@x.com");
                         ("password", "hunter22")])
           604800 eq_refl eq_refl eq_refl eq_refl eq_refl eq_refl eq_refl).
Defined.
